(** * cMemLeak: allocation handles, reference-count perturbation, byte buffers

    A shallow embedding of [src/cpy/cMemLeak.c].  The C functions of the
    module are written as state-passing functions over a [World] that holds
    what the module can touch through the host runtime: the blocks handed out
    by the four allocator families it calls into, the reference counts of the
    objects it is given, the thread's error indicator, and a log of every
    allocator call.  The host interface (libc [malloc]/[free] and the CPython
    C-API calls the file makes) is modelled from its documented contract and
    kept apart from the functions that are transcribed from the file. *)

From Stdlib Require Import ZArith List Bool Lia.
From Stdlib.Strings Require Import Byte.
From stdpp Require Import base gmap strings.

Local Open Scope Z_scope.

(** ** Memory model *)

(** Addresses are integers; [NULL] is address zero. *)
Abbreviation ptr := Z (only parsing).
Definition NULL : ptr := 0.

(** An allocator family is a matched allocate/release pair.  The file calls
    into four of them. *)
Inductive family : Set :=
  | Fam_libc   (* malloc / free *)
  | Fam_raw    (* PyMem_RawMalloc / PyMem_RawFree *)
  | Fam_mem    (* PyMem_Malloc / PyMem_Free *)
  | Fam_obj.   (* PyObject_Malloc / PyObject_Free, behind tp_alloc / tp_free *)

#[global] Instance family_eq_dec : EqDecision family.
Proof. solve_decision. Defined.

Record block : Set := Block { blk_family : family; blk_size : Z }.

(** Calls that reach an allocator, and calls to [_Py_Dealloc]. *)
Inductive event : Set :=
  | EvAlloc (f : family) (nbytes : Z) (result : ptr)
  | EvRelease (f : family) (p : ptr)
  | EvDealloc (op : ptr).

(** A release function handed a pointer it must not be handed. *)
Inductive violation : Set :=
  | Mismatched (released_by owned_by : family) (p : ptr)
  | NotLive (released_by : family) (p : ptr).

Inductive PyExc : Set :=
  | PyExc_TypeError
  | PyExc_OverflowError
  | PyExc_MemoryError
  | PyExc_SystemError
  | PyExc_AttributeError.

#[global] Instance PyExc_eq_dec : EqDecision PyExc.
Proof. solve_decision. Defined.

(** The head every object starts with. *)
Record PyObject : Set := { ob_refcnt : Z; ob_type : string }.

Record World : Type := {
  heap : gmap Z block;          (* live blocks, by address *)
  brk : positive;               (* next address the allocators hand out *)
  objs : gmap Z PyObject;       (* objects whose counters the module may touch *)
  err : option PyExc;           (* the error indicator *)
  trace : list event;           (* allocator calls, most recent first *)
  violations : list violation   (* invalid releases, most recent first *)
}.

Definition with_heap (h : gmap Z block) (b : positive) (s : World) : World :=
  {| heap := h; brk := b; objs := objs s; err := err s;
     trace := trace s; violations := violations s |}.

Definition with_objs (o : gmap Z PyObject) (s : World) : World :=
  {| heap := heap s; brk := brk s; objs := o; err := err s;
     trace := trace s; violations := violations s |}.

Definition with_err (e : option PyExc) (s : World) : World :=
  {| heap := heap s; brk := brk s; objs := objs s; err := e;
     trace := trace s; violations := violations s |}.

Definition log (ev : event) (s : World) : World :=
  {| heap := heap s; brk := brk s; objs := objs s; err := err s;
     trace := ev :: trace s; violations := violations s |}.

Definition flag (v : violation) (s : World) : World :=
  {| heap := heap s; brk := brk s; objs := objs s; err := err s;
     trace := trace s; violations := v :: violations s |}.

(** Python values as the argument parser sees them: an integer (anything
    with [__index__]), or an object that is not one. *)
Inductive PyVal : Set :=
  | PyLong (z : Z)
  | PyOther (tp_name : string).

(** [typedef struct { PyObject_HEAD size_t size; void *buffer; }]: the three
    structs of the file ([CMallocObject], [PyRawMallocObject],
    [PyMallocObject]) have this one layout.  [ob_base] is the address of the
    instance itself. *)
Record MallocObject : Set := { ob_base : ptr; size : Z; buffer : ptr }.

Definition set_size (n : Z) (self : MallocObject) : MallocObject :=
  {| ob_base := ob_base self; size := n; buffer := buffer self |}.

Definition set_buffer (p : ptr) (self : MallocObject) : MallocObject :=
  {| ob_base := ob_base self; size := size self; buffer := p |}.

(** A bytes object: its length and its storage, one cell per byte plus the
    terminating NUL.  A cell that was never written is [None]. *)
Record PyBytesObject : Set := { ob_size : Z; ob_sval : list (option byte) }.

(** [structmember.h] *)
Inductive member_type : Set := T_ULONG.
Inductive member_offset : Set := offsetof_size | offsetof_buffer.
Definition READONLY : Z := 1.

Record PyMemberDef : Set := {
  m_name : string;
  m_type : member_type;
  m_offset : member_offset;
  m_flags : Z;
  m_doc : string
}.

(** The slots of [PyTypeObject] that the file fills in. *)
Record PyTypeObject : Type := {
  tp_name : string;
  tp_doc : string;
  tp_basicsize : Z;
  tp_new : Z -> World -> option MallocObject * World;
  tp_init : MallocObject -> list PyVal -> list (string * PyVal) -> World ->
            Z * MallocObject * World;
  tp_dealloc : MallocObject -> World -> World;
  tp_members : list PyMemberDef
}.

(** Concrete surroundings used to run the model: an allocator that serves
    requests of up to 4096 bytes and an empty world. *)
Definition grant_4k (h : gmap Z block) (f : family) (n : Z) : bool := n <=? 4096.

Definition world0 : World :=
  {| heap := ∅; brk := 4096%positive; objs := ∅; err := None;
     trace := []; violations := [] |}.

(** A new, not yet initialised instance of a handle type on a 64-bit
    target, and the world in which it has just been stored. *)
Definition handle0 : MallocObject :=
  {| ob_base := 4096; size := 0; buffer := NULL |}.

Definition world_new : World :=
  {| heap := {[ 4096 := Block Fam_obj 32 ]}; brk := 4128%positive; objs := ∅;
     err := None; trace := [EvAlloc Fam_obj 32 4096]; violations := [] |}.

(** A world with [None] at address 8 and a list at address 64 that one
    reference keeps alive. *)
Definition world_refs : World :=
  {| heap := ∅; brk := 4096%positive;
     objs := {[ 8 := {| ob_refcnt := 1000; ob_type := "NoneType" |};
                64 := {| ob_refcnt := 1; ob_type := "list" |} ]};
     err := None; trace := []; violations := [] |}.

(** ** Module-level objects *)

(** A function of a method table, with the calling convention its flags
    select: [METH_O] passes the one argument, [METH_VARARGS | METH_KEYWORDS]
    the positional and the named arguments. *)
Inductive PyCFunction : Type :=
  | METH_O (f : ptr -> World -> ptr * World)
  | METH_VARARGS_KEYWORDS
      (f : list PyVal -> list (string * PyVal) -> World ->
           option PyBytesObject * World).

Record PyMethodDef : Type := {
  ml_name : string;
  ml_meth : PyCFunction;
  ml_doc : string
}.

(** [PyModuleDef]; the fields [m_name], [m_doc], [m_size], [m_methods] carry
    the prefix [md_] here, [m_name] and [m_doc] being taken by [PyMemberDef]. *)
Record PyModuleDef : Type := {
  md_name : string;
  md_doc : string;
  md_size : Z;
  md_methods : list PyMethodDef
}.

(** What a name of the module is bound to: a function of the method table,
    or the type object at an address. *)
Inductive attr : Type :=
  | AttrFunction (d : PyMethodDef)
  | AttrType (p : ptr).

(** The state module initialisation works on: the world; the names the
    extension has bound in the dictionary of the module being initialised,
    through its method table and through [PyModule_AddObject] (the entries
    the host adds of its own, such as [__name__], are not tracked); and the
    type objects [PyType_Ready] has been called on, latest first. *)
Record Interp : Type := {
  world : World;
  module_dict : gmap string attr;
  readied : list ptr
}.

Definition on_world (f : World -> World) (i : Interp) : Interp :=
  {| world := f (world i); module_dict := module_dict i; readied := readied i |}.

(** A world in which [None] sits at address 8 and the three static type
    objects at addresses 100, 200 and 300, each with the single reference a
    static object starts with; and hosts that never fail, or fail at one
    step. *)
Definition world_types : World :=
  {| heap := ∅; brk := 4096%positive;
     objs := {[ 8 := {| ob_refcnt := 1000; ob_type := "NoneType" |};
                100 := {| ob_refcnt := 1; ob_type := "type" |};
                200 := {| ob_refcnt := 1; ob_type := "type" |};
                300 := {| ob_refcnt := 1; ob_type := "type" |} ]};
     err := None; trace := []; violations := [] |}.

Definition always_ok {A : Type} (x : A) : option PyExc := None.

(** The counts of an interpreter that keeps one reference to a module for
    each function of a method table of three besides the one it returns, and
    four references to a type it has made ready. *)
Definition refs_of_new_module : Z := 4.

Definition four_refs (p : ptr) : Z := 4.

Definition fails_on_ptr (p : ptr) (q : ptr) : option PyExc :=
  if q =? p then Some PyExc_TypeError else None.

Definition fails_on_name (n : string) (m : string) : option PyExc :=
  if String.eqb m n then Some PyExc_MemoryError else None.

Section cMemLeak.

(** The platform and the surroundings are parameters: the width in bits of
    [size_t] / [Py_ssize_t] / [unsigned long] (an LP64 or ILP32 target), the
    decision of the system whether a request for [n] bytes from a family is
    served given the live blocks, and the address of the [None] singleton. *)
Variable w : positive.
Variable grant : gmap Z block -> family -> Z -> bool.
Variable Py_None : ptr.

(** ** Machine integers *)

Definition modulus : Z := 2 ^ Z.pos w.
Definition half_modulus : Z := 2 ^ (Z.pos w - 1).
Definition PY_SSIZE_T_MAX : Z := half_modulus - 1.
Definition PY_SSIZE_T_MIN : Z := - half_modulus.

(** The value an integer has once stored in a [size_t] (or [unsigned long]). *)
Definition to_size_t (z : Z) : Z := z mod modulus.

(** The value an integer has once stored in a [Py_ssize_t]. *)
Definition to_ssize_t (z : Z) : Z := (z + half_modulus) mod modulus - half_modulus.

(** ** Host interface: allocators *)

(** A request for [n] bytes from family [f].  A served request returns the
    current break as a fresh non-null address and records the block under its
    family; a refused one returns [NULL].  The error indicator is never
    touched. *)
Definition raw_alloc (f : family) (n : Z) (s : World) : ptr * World :=
  if grant (heap s) f n then
    let p := Z.pos (brk s) in
    (p, log (EvAlloc f n p)
          (with_heap (<[p := Block f n]> (heap s)) (brk s + Z.to_pos n)%positive s))
  else (NULL, log (EvAlloc f n NULL) s).

(** Releasing [p] through family [f]: no operation on [NULL]; otherwise [p]
    must be a live block of that same family, and anything else is recorded
    as a violation. *)
Definition raw_release (f : family) (p : ptr) (s : World) : World :=
  let s := log (EvRelease f p) s in
  if p =? NULL then s
  else match heap s !! p with
       | Some b =>
           if decide (blk_family b = f)
           then with_heap (delete p (heap s)) (brk s) s
           else flag (Mismatched f (blk_family b) p) s
       | None => flag (NotLive f p) s
       end.

Definition malloc : Z -> World -> ptr * World := raw_alloc Fam_libc.
Definition free : ptr -> World -> World := raw_release Fam_libc.
Definition PyMem_RawMalloc : Z -> World -> ptr * World := raw_alloc Fam_raw.
Definition PyMem_RawFree : ptr -> World -> World := raw_release Fam_raw.
Definition PyMem_Malloc : Z -> World -> ptr * World := raw_alloc Fam_mem.
Definition PyMem_Free : ptr -> World -> World := raw_release Fam_mem.
Definition PyObject_Malloc : Z -> World -> ptr * World := raw_alloc Fam_obj.
Definition PyObject_Free : ptr -> World -> World := raw_release Fam_obj.

(** ** Host interface: errors *)

Definition PyErr_Set (e : PyExc) (s : World) : World := with_err (Some e) s.
Definition PyErr_NoMemory (s : World) : World := PyErr_Set PyExc_MemoryError s.

(** ** Host interface: argument parsing *)

(** Format unit ["n"]: the object is converted with [__index__] and must fit
    a [Py_ssize_t]. *)
Definition convert_n (v : PyVal) : PyExc + Z :=
  match v with
  | PyLong z =>
      if (PY_SSIZE_T_MIN <=? z) && (z <=? PY_SSIZE_T_MAX) then inr z
      else inl PyExc_OverflowError
  | PyOther _ => inl PyExc_TypeError
  end.

(** [PyArg_ParseTupleAndKeywords(args, kwds, "n", kwlist, &dest)] with a
    one-name [kwlist]: one required argument, given by position or by that
    name.  On failure nothing is written to [dest]. *)
Definition PyArg_ParseTupleAndKeywords
    (args : list PyVal) (kwds : list (string * PyVal)) (kw : string) : PyExc + Z :=
  if (1 <? length args + length kwds)%nat then inl PyExc_TypeError
  else match args, kwds with
       | [v], _ => convert_n v
       | _, [(k, v)] => if String.eqb k kw then convert_n v else inl PyExc_TypeError
       | _, _ => inl PyExc_TypeError
       end.

(** ** Host interface: instance storage *)

(** [type->tp_alloc(type, 0)] is [PyType_GenericAlloc]: zero-filled storage
    of [tp_basicsize] bytes from the object allocator, [MemoryError] when
    there is none. *)
Definition tp_alloc (basicsize : Z) (s : World) : option MallocObject * World :=
  let '(p, s) := PyObject_Malloc basicsize s in
  if p =? NULL then (None, PyErr_NoMemory s)
  else (Some {| ob_base := p; size := 0; buffer := NULL |}, s).

Definition tp_free (self : MallocObject) (s : World) : World :=
  PyObject_Free (ob_base self) s.

(** Two words of [PyObject_HEAD], a [size_t] and a pointer. *)
Definition sizeof_MallocObject : Z := 4 * (Z.pos w / 8).

(** ** The three handle types of the file

    Each [tp_new] uses its [type] argument only to call [type->tp_alloc],
    which needs the type's [tp_basicsize]; that size is what the functions
    below receive. *)

(** *** Allocate a buffer with C's malloc() *)

Definition CMallocObject_dealloc (self : MallocObject) (s : World) : World :=
  let s := free (buffer self) s in
  tp_free self s.

Definition CMallocObject_new (basicsize : Z) (s : World) : option MallocObject * World :=
  match tp_alloc basicsize s with
  | (Some self, s) => (Some (set_buffer NULL (set_size 0 self)), s)
  | (None, s) => (None, s)
  end.

Definition CMallocObject_init (self : MallocObject)
    (args : list PyVal) (kwds : list (string * PyVal)) (s : World)
    : Z * MallocObject * World :=
  match PyArg_ParseTupleAndKeywords args kwds "size" with
  | inl e => (-1, self, PyErr_Set e s)
  | inr n =>
      let self := set_size (to_size_t n) self in
      let self := if size self =? 0 then set_size 1 self else self in
      let '(p, s) := malloc (size self) s in
      let self := set_buffer p self in
      if buffer self =? NULL then (-1, self, s)
      else (0, self, s)
  end.

Definition CMallocObject_members : list PyMemberDef :=
  [ {| m_name := "size"; m_type := T_ULONG; m_offset := offsetof_size;
       m_flags := 0; m_doc := "Buffer size." |} ].

Definition CMallocObjectType : PyTypeObject :=
  {| tp_name := "cMemLeak.CMallocObject";
     tp_doc := "A simple Python object that reserves a block of C memory with malloc(). Actual reserved memory is always >=1 byte.";
     tp_basicsize := sizeof_MallocObject;
     tp_new := CMallocObject_new;
     tp_init := CMallocObject_init;
     tp_dealloc := CMallocObject_dealloc;
     tp_members := CMallocObject_members |}.

(** *** Allocate a buffer with Python's raw memory interface *)

Definition PyRawMallocObject_dealloc (self : MallocObject) (s : World) : World :=
  let s := PyMem_RawFree (buffer self) s in
  tp_free self s.

Definition PyRawMallocObject_new (basicsize : Z) (s : World) : option MallocObject * World :=
  match tp_alloc basicsize s with
  | (Some self, s) => (Some (set_buffer NULL (set_size 0 self)), s)
  | (None, s) => (None, s)
  end.

Definition PyRawMallocObject_init (self : MallocObject)
    (args : list PyVal) (kwds : list (string * PyVal)) (s : World)
    : Z * MallocObject * World :=
  match PyArg_ParseTupleAndKeywords args kwds "size" with
  | inl e => (-1, self, PyErr_Set e s)
  | inr n =>
      let self := set_size (to_size_t n) self in
      let self := if size self =? 0 then set_size 1 self else self in
      let '(p, s) := PyMem_Malloc (size self) s in
      let self := set_buffer p self in
      if buffer self =? NULL then (-1, self, s)
      else (0, self, s)
  end.

Definition PyRawMallocObject_members : list PyMemberDef :=
  [ {| m_name := "size"; m_type := T_ULONG; m_offset := offsetof_size;
       m_flags := 0; m_doc := "Buffer size." |} ].

Definition PyRawMallocObjectType : PyTypeObject :=
  {| tp_name := "cMemLeak.PyRawMallocObject";
     tp_doc := "A simple Python object that reserves a block of memory with Pythons raw memory allocator. Actual reserved memory is always >=1 byte.";
     tp_basicsize := sizeof_MallocObject;
     tp_new := PyRawMallocObject_new;
     tp_init := PyRawMallocObject_init;
     tp_dealloc := PyRawMallocObject_dealloc;
     tp_members := PyRawMallocObject_members |}.

(** *** Allocate a buffer with Python's pymalloc memory interface *)

Definition PyMallocObject_dealloc (self : MallocObject) (s : World) : World :=
  let s := PyMem_Free (buffer self) s in
  tp_free self s.

Definition PyMallocObject_new (basicsize : Z) (s : World) : option MallocObject * World :=
  match tp_alloc basicsize s with
  | (Some self, s) => (Some (set_buffer NULL (set_size 0 self)), s)
  | (None, s) => (None, s)
  end.

Definition PyMallocObject_init (self : MallocObject)
    (args : list PyVal) (kwds : list (string * PyVal)) (s : World)
    : Z * MallocObject * World :=
  match PyArg_ParseTupleAndKeywords args kwds "size" with
  | inl e => (-1, self, PyErr_Set e s)
  | inr n =>
      let self := set_size (to_size_t n) self in
      let self := if size self =? 0 then set_size 1 self else self in
      let '(p, s) := PyMem_Malloc (size self) s in
      let self := set_buffer p self in
      if buffer self =? NULL then (-1, self, s)
      else (0, self, s)
  end.

Definition PyMallocObject_members : list PyMemberDef :=
  [ {| m_name := "size"; m_type := T_ULONG; m_offset := offsetof_size;
       m_flags := 0; m_doc := "Buffer size." |} ].

Definition PyMallocObjectType : PyTypeObject :=
  {| tp_name := "cMemLeak.PyMallocObject";
     tp_doc := "A simple Python object that reserves a block of memory with Pythons pymalloc allocator. Actual reserved memory is always >=1 byte.";
     tp_basicsize := sizeof_MallocObject;
     tp_new := PyMallocObject_new;
     tp_init := PyMallocObject_init;
     tp_dealloc := PyMallocObject_dealloc;
     tp_members := PyMallocObject_members |}.

(** The types [PyInit_cMemLeak] adds to the module, under their module names. *)
Definition PyInit_cMemLeak : list (string * PyTypeObject) :=
  [ ("CMalloc", CMallocObjectType);
    ("PyRawMalloc", PyRawMallocObjectType);
    ("PyMalloc", PyMallocObjectType) ].

Definition handle_types : list PyTypeObject := map snd PyInit_cMemLeak.

(** ** Host interface: attribute access through [tp_members] *)

Definition read_member (self : MallocObject) (off : member_offset) : Z :=
  match off with
  | offsetof_size => size self
  | offsetof_buffer => buffer self
  end.

Definition write_member (self : MallocObject) (off : member_offset) (v : Z) : MallocObject :=
  match off with
  | offsetof_size => set_size v self
  | offsetof_buffer => set_buffer v self
  end.

(** [PyMember_GetOne]: a [T_ULONG] member is read as an [unsigned long]. *)
Definition PyMember_GetOne (self : MallocObject) (l : PyMemberDef) : Z :=
  match m_type l with
  | T_ULONG => to_size_t (read_member self (m_offset l))
  end.

(** [PyMember_SetOne]; [v = None] is a deletion.  A member whose flags have
    [READONLY] is refused.  For [T_ULONG] the value is converted with
    [PyLong_AsUnsignedLong]; a negative value that fits a [long] (which has
    the width of [Py_ssize_t] here) is accepted too, with a warning, and
    stored modulo the word; any other value leaves the conversion's error
    sentinel in the field and fails. *)
Definition PyMember_SetOne (self : MallocObject) (l : PyMemberDef)
    (v : option PyVal) (s : World) : Z * MallocObject * World :=
  if negb (Z.land (m_flags l) READONLY =? 0) then
    (-1, self, PyErr_Set PyExc_AttributeError s)
  else
    match v with
    | None => (-1, self, PyErr_Set PyExc_TypeError s)
    | Some (PyLong z) =>
        match m_type l with
        | T_ULONG =>
            if (0 <=? z) && (z <? modulus) then
              (0, write_member self (m_offset l) z, s)
            else if (PY_SSIZE_T_MIN <=? z) && (z <=? PY_SSIZE_T_MAX) then
              (0, write_member self (m_offset l) (to_size_t z), with_err None s)
            else
              (-1, write_member self (m_offset l) (modulus - 1),
               PyErr_Set PyExc_OverflowError s)
        end
    | Some (PyOther _) =>
        match m_type l with
        | T_ULONG =>
            (-1, write_member self (m_offset l) (modulus - 1),
             PyErr_Set PyExc_TypeError s)
        end
    end.

Definition find_member (name : string) (ms : list PyMemberDef) : option PyMemberDef :=
  List.find (fun l => String.eqb (m_name l) name) ms.

(** [obj.name] and [obj.name = v] on an instance of [t]: the instances have no
    dictionary, so a name is an attribute only if [tp_members] lists it. *)
Definition getattr (t : PyTypeObject) (self : MallocObject) (name : string)
    (s : World) : option Z * World :=
  match find_member name (tp_members t) with
  | Some l => (Some (PyMember_GetOne self l), s)
  | None => (None, PyErr_Set PyExc_AttributeError s)
  end.

Definition setattr (t : PyTypeObject) (self : MallocObject) (name : string)
    (v : option PyVal) (s : World) : Z * MallocObject * World :=
  match find_member name (tp_members t) with
  | Some l => PyMember_SetOne self l v s
  | None => (-1, self, PyErr_Set PyExc_AttributeError s)
  end.

(** ** Host interface: calling a type *)

(** [type_call]: [tp_new], then [tp_init] on the new object; when [tp_init]
    reports failure the only reference to the object is dropped, which runs
    [tp_dealloc], and the caller gets [NULL]. *)
Definition type_call (t : PyTypeObject)
    (args : list PyVal) (kwds : list (string * PyVal)) (s : World)
    : option MallocObject * World :=
  match tp_new t (tp_basicsize t) s with
  | (None, s) => (None, s)
  | (Some obj, s) =>
      let '(res, obj, s) := tp_init t obj args kwds s in
      if res <? 0 then (None, tp_dealloc t obj s)
      else (Some obj, s)
  end.

(** What the caller of [t(args, kwds)] observes: the result of [type_call]
    after the interpreter's consistency check, which turns a [NULL] result
    with a clear error indicator into [SystemError]. *)
Definition PyObject_Call (t : PyTypeObject)
    (args : list PyVal) (kwds : list (string * PyVal)) (s : World)
    : option MallocObject * World :=
  match type_call t args kwds s with
  | (None, s) =>
      match err s with
      | None => (None, PyErr_Set PyExc_SystemError s)
      | Some _ => (None, s)
      end
  | (Some obj, s) =>
      match err s with
      | None => (Some obj, s)
      | Some _ => (None, PyErr_Set PyExc_SystemError (tp_dealloc t obj s))
      end
  end.

(** ** Host interface: reference counts *)

Definition set_refcnt (n : Z) (o : PyObject) : PyObject :=
  {| ob_refcnt := n; ob_type := ob_type o |}.

(** [op->ob_refcnt++] on a [Py_ssize_t] field, the counting of the
    interpreters the file was written for (every object is counted, [None]
    included).  An address that holds no object is left alone. *)
Definition Py_INCREF (op : ptr) (s : World) : World :=
  match objs s !! op with
  | Some o => with_objs (<[op := set_refcnt (to_ssize_t (ob_refcnt o + 1)) o]> (objs s)) s
  | None => s
  end.

(** [_Py_Dealloc(op)] hands [op] to the destructor of its type, which is
    code of the host or of another extension.  The call is recorded as an
    event; what the destructor does with the object, the heap or anything
    else is not modelled, so of a world that follows such an event only the
    event itself is a statement about the program. *)
Definition _Py_Dealloc (op : ptr) (s : World) : World := log (EvDealloc op) s.

(** [if (--op->ob_refcnt == 0) _Py_Dealloc(op)] *)
Definition Py_DECREF (op : ptr) (s : World) : World :=
  match objs s !! op with
  | Some o =>
      let n := to_ssize_t (ob_refcnt o - 1) in
      let s := with_objs (<[op := set_refcnt n o]> (objs s)) s in
      if n =? 0 then _Py_Dealloc op s else s
  | None => s
  end.

(** [Py_RETURN_NONE]: [return Py_INCREF(Py_None), Py_None] *)
Definition Py_RETURN_NONE (s : World) : ptr * World :=
  (Py_None, Py_INCREF Py_None s).

(** A call used as a statement: the interpreter drops the reference the
    call returned. *)
Definition discard (r : ptr * World) : World := Py_DECREF (fst r) (snd r).

(** ** Host interface: bytes objects *)

(** [offsetof(PyBytesObject, ob_sval) + 1]: four header words and the NUL. *)
Definition PyBytesObject_SIZE : Z := 4 * (Z.pos w / 8) + 1.

Definition bytes_empty : PyBytesObject :=
  {| ob_size := 0; ob_sval := [Some x00] |}.

(** [PyBytes_FromStringAndSize(NULL, size)].  The parameter is a
    [Py_ssize_t], so the argument is converted to that type first.  A
    negative size is refused with [SystemError]; size zero is the shared
    empty object; a size that cannot be added to the header is refused with
    [OverflowError]; otherwise the object is taken from the object allocator,
    [MemoryError] when there is none, and only its terminator is written. *)
Definition PyBytes_FromStringAndSize (size_arg : Z) (s : World)
    : option PyBytesObject * World :=
  let size := to_ssize_t size_arg in
  if size <? 0 then (None, PyErr_Set PyExc_SystemError s)
  else if size =? 0 then (Some bytes_empty, s)
  else if PY_SSIZE_T_MAX - PyBytesObject_SIZE <? size then
    (None, PyErr_Set PyExc_OverflowError s)
  else
    let '(p, s) := PyObject_Malloc (PyBytesObject_SIZE + size) s in
    if p =? NULL then (None, PyErr_NoMemory s)
    else (Some {| ob_size := size;
                  ob_sval := repeat None (Z.to_nat size) ++ [Some x00] |}, s).

(** [len(b)] and the bytes of [b] *)
Definition PyBytes_Size (b : PyBytesObject) : Z := ob_size b.
Definition PyBytes_AsString (b : PyBytesObject) : list (option byte) :=
  take (Z.to_nat (ob_size b)) (ob_sval b).

(** ** The module functions of the file *)

(** Increments the reference count of the supplied PyObject. *)
Definition py_incref (pobj : ptr) (s : World) : ptr * World :=
  let s := Py_INCREF pobj s in
  Py_RETURN_NONE s.

(** Decrements the reference count of the supplied PyObject. *)
Definition py_decref (pobj : ptr) (s : World) : ptr * World :=
  let s := Py_DECREF pobj s in
  Py_RETURN_NONE s.

(** Returns a Python bytes object of specified size. *)
Definition py_bytes_of_size (args : list PyVal) (kwds : list (string * PyVal))
    (s : World) : option PyBytesObject * World :=
  match PyArg_ParseTupleAndKeywords args kwds "size" with
  | inl e => (None, PyErr_Set e s)
  | inr n =>
      let size := to_size_t n in
      PyBytes_FromStringAndSize size s
  end.

(** The byte count a handle asks its allocator for, once [n] has been parsed
    into the [size_t] field and a zero has been raised to one. *)
Definition requested (n : Z) : Z :=
  if to_size_t n =? 0 then 1 else to_size_t n.

(** The result of an init whose argument parsed to [n], in terms of the one
    allocator call it makes. *)
Definition init_result (self : MallocObject) (n : Z) (r : ptr * World)
    : Z * MallocObject * World :=
  (if fst r =? NULL then -1 else 0,
   set_buffer (fst r) (set_size (requested n) self),
   snd r).

(** The counter of the object at [x], if there is one. *)
Definition refcnt (s : World) (x : ptr) : option Z := ob_refcnt <$> objs s !! x.

(** The errors the argument parser raises. *)
Definition InvalidArgument (e : PyExc) : Prop :=
  e = PyExc_TypeError \/ e = PyExc_OverflowError.

(** ** The method table and the module definition *)

Definition MemLeakMethods : list PyMethodDef :=
  [ {| ml_name := "py_incref"; ml_meth := METH_O py_incref;
       ml_doc := "Increment the reference count of the Python object." |};
    {| ml_name := "py_decref"; ml_meth := METH_O py_decref;
       ml_doc := "Decrement the reference count of the Python object." |};
    {| ml_name := "py_bytes_of_size";
       ml_meth := METH_VARARGS_KEYWORDS py_bytes_of_size;
       ml_doc := "Returns a Python bytes object of specified size. The content is uninitialised." |} ].

Definition cMemLeakmodule : PyModuleDef :=
  {| md_name := "cMemLeak";
     md_doc := "A module that contains a variety of ways of exercising memory and creating memory leaks on demand.";
     md_size := -1;
     md_methods := MemLeakMethods |}.

(** ** Host interface: module initialisation

    What the host answers is a parameter: whether it can create the module
    (and at which address), and, for each type and each name, whether
    [PyType_Ready] and [PyModule_AddObject] succeed or which exception they
    raise.  The three static type objects sit at three addresses.

    So are the references the host keeps for itself: [module_refs] is the
    counter of the module at the return of [PyModule_Create], which counts
    the reference returned to the caller and those the host holds (CPython:
    one in each function object made from the method table, whose
    [__self__] is the module); [ready_refs type] is what a call of
    [PyType_Ready] adds to the counter of the type (CPython: the references
    from the method resolution order and from the descriptors of the type's
    dictionary). *)
Variable module_create : option positive.
Variable type_ready : ptr -> option PyExc.
Variable add_object : string -> option PyExc.
Variable addr_CMallocObjectType : ptr.
Variable addr_PyRawMallocObjectType : ptr.
Variable addr_PyMallocObjectType : ptr.
Variable module_refs : Z.
Variable ready_refs : ptr -> Z.

(** [op->ob_refcnt += k], the references the host takes to [op]. *)
Definition add_refs (k : Z) (op : ptr) (s : World) : World :=
  match objs s !! op with
  | Some o => with_objs (<[op := set_refcnt (to_ssize_t (ob_refcnt o + k)) o]> (objs s)) s
  | None => s
  end.

(** [PyModule_Create(&def)]: a new module object whose counter is
    [module_refs], with the functions of the method table bound in its
    dictionary; or [NULL] and an exception. *)
Definition PyModule_Create (def : PyModuleDef) (s : World) : ptr * Interp :=
  match module_create with
  | Some m =>
      (Z.pos m,
       {| world := with_objs (<[Z.pos m := {| ob_refcnt := module_refs;
                                               ob_type := "module" |}]>
                                (objs s)) s;
          module_dict :=
            list_to_map (map (fun d => (ml_name d, AttrFunction d)) (md_methods def));
          readied := [] |})
  | None => (NULL, {| world := PyErr_NoMemory s; module_dict := ∅; readied := [] |})
  end.

(** The references the host takes to a type it is asked to make ready. *)
Definition take_ready_refs (type : ptr) (i : Interp) : Interp :=
  {| world := add_refs (ready_refs type) type (world i);
     module_dict := module_dict i;
     readied := type :: readied i |}.

(** [PyType_Ready(&type)]: 0, or -1 and an exception; the host takes
    [ready_refs type] references to the type.  What the call does to other
    objects and the memory it takes for the type's own tables are outside
    the model. *)
Definition PyType_Ready (type : ptr) (i : Interp) : Z * Interp :=
  match type_ready type with
  | None => (0, take_ready_refs type i)
  | Some e => (-1, on_world (PyErr_Set e) (take_ready_refs type i))
  end.

(** [PyModule_AddObject(m, name, o)]: binds [name] in the dictionary of the
    module and takes over the caller's reference to [o], returning 0; or
    returns -1 with an exception, the reference left with the caller. *)
Definition PyModule_AddObject (m : ptr) (name : string) (o : ptr) (i : Interp)
    : Z * Interp :=
  match add_object name with
  | None => (0, {| world := world i;
                   module_dict := <[name := AttrType o]> (module_dict i);
                   readied := readied i |})
  | Some e => (-1, on_world (PyErr_Set e) i)
  end.

(** The body of [PyInit_cMemLeak], run in a world: the module or [NULL], and
    the state it leaves.  (The name [PyInit_cMemLeak] itself stands, above,
    for the table of the types this function registers.) *)
Definition PyInit_cMemLeak_exec (s : World) : ptr * Interp :=
  let '(m, i) := PyModule_Create cMemLeakmodule s in
  if m =? NULL then (NULL, i) else
  (* C malloc() *)
  let '(r, i) := PyType_Ready addr_CMallocObjectType i in
  if r <? 0 then (NULL, i) else
  let i := on_world (Py_INCREF addr_CMallocObjectType) i in
  let '(r, i) := PyModule_AddObject m "CMalloc" addr_CMallocObjectType i in
  if r <? 0 then
    let i := on_world (Py_DECREF addr_CMallocObjectType) i in
    let i := on_world (Py_DECREF m) i in
    (NULL, i)
  else
  (* Python raw malloc() *)
  let '(r, i) := PyType_Ready addr_PyRawMallocObjectType i in
  if r <? 0 then (NULL, i) else
  let i := on_world (Py_INCREF addr_PyRawMallocObjectType) i in
  let '(r, i) := PyModule_AddObject m "PyRawMalloc" addr_PyRawMallocObjectType i in
  if r <? 0 then
    let i := on_world (Py_DECREF addr_PyRawMallocObjectType) i in
    let i := on_world (Py_DECREF m) i in
    (NULL, i)
  else
  (* Python pymalloc() *)
  let '(r, i) := PyType_Ready addr_PyMallocObjectType i in
  if r <? 0 then (NULL, i) else
  let i := on_world (Py_INCREF addr_PyMallocObjectType) i in
  let '(r, i) := PyModule_AddObject m "PyMalloc" addr_PyMallocObjectType i in
  if r <? 0 then
    let i := on_world (Py_DECREF addr_PyMallocObjectType) i in
    let i := on_world (Py_DECREF m) i in
    (NULL, i)
  else
  (m, i).

(** The types in the order the function registers them, by name and by
    address. *)
Definition registered_types : list (string * ptr) :=
  [ ("CMalloc", addr_CMallocObjectType);
    ("PyRawMalloc", addr_PyRawMallocObjectType);
    ("PyMalloc", addr_PyMallocObjectType) ].

(** The references a dictionary holds to a type through the binding of
    [name]: one if the name is bound to a type, none otherwise. *)
Definition bound_refs (d : gmap string attr) (name : string) : Z :=
  match d !! name with
  | Some (AttrType _) => 1
  | _ => 0
  end.

(** The references the host has taken to the type at [p] in the calls of
    [PyType_Ready] recorded in [l]. *)
Fixpoint readied_refs (l : list ptr) (p : ptr) : Z :=
  match l with
  | [] => 0
  | q :: l => (if decide (q = p) then ready_refs p else 0) + readied_refs l p
  end.

(** Every live block lies below the break, so the addresses the allocators
    hand out next are free. *)
Definition world_ok (s : World) : Prop :=
  forall p, Z.pos (brk s) <= p -> heap s !! p = None.

(** [k] calls of [f] on [x] as statements, one after the other. *)
Definition repeat_call (f : ptr -> World -> ptr * World) (x : ptr)
    (k : nat) (s : World) : World :=
  Nat.iter k (fun s => discard (f x s)) s.

(** ** Statements shared by the properties below *)

(** With a null buffer, a destructor that releases the buffer through family
    [f] logs that release, which does nothing, and then gives back the
    storage of the instance. *)
Definition dealloc_no_buffer (f : family) (self : MallocObject) (s : World) : World :=
  with_heap (delete (ob_base self) (heap s)) (brk s)
    (log (EvRelease Fam_obj (ob_base self)) (log (EvRelease f NULL) s)).

(** [tp_init] of [t] on these arguments asks family [f] for [m] bytes, in one
    call, and leaves [m] in the size field. *)
Definition init_requests (t : PyTypeObject) (f : family)
    (args : list PyVal) (kwds : list (string * PyVal)) (m : Z) : Prop :=
  forall self s, exists p s',
    tp_init t self args kwds s
      = (if p =? NULL then -1 else 0, set_buffer p (set_size m self), s') /\
    trace s' = EvAlloc f m p :: trace s /\
    (p <> NULL -> heap s' !! p = Some (Block f m)).

(** For [t], arguments that parse to 0 and arguments that parse to 1 are the
    same call, in [tp_init] and in the call of the type; and the handle that
    [tp_init] leaves reads 1 from its [size] attribute. *)
Definition zero_as_one (t : PyTypeObject)
    (args0 : list PyVal) (kwds0 : list (string * PyVal))
    (args1 : list PyVal) (kwds1 : list (string * PyVal)) : Prop :=
  (forall self s, tp_init t self args0 kwds0 s = tp_init t self args1 kwds1 s) /\
  (forall s, type_call t args0 kwds0 s = type_call t args1 kwds1 s) /\
  (forall self s r self' s',
     tp_init t self args0 kwds0 s = (r, self', s') ->
     getattr t self' "size" s' = (Some 1, s')).

(** Arguments that the parser refuses with [e] make a type whose destructor
    releases through [f] fail in [tp_init] with nothing changed but the
    error indicator, and make the call of the type return no object; when
    the instance itself could be stored, the whole call requests and releases
    that storage and nothing else. *)
Definition rejects_before_allocating (t : PyTypeObject) (f : family)
    (args : list PyVal) (kwds : list (string * PyVal)) (e : PyExc) : Prop :=
  (forall self s, tp_init t self args kwds s = (-1, self, PyErr_Set e s)) /\
  (forall s,
     fst (type_call t args kwds s) = None /\
     (grant (heap s) Fam_obj (tp_basicsize t) = true ->
      err (snd (type_call t args kwds s)) = Some e /\
      trace (snd (type_call t args kwds s))
        = EvRelease Fam_obj (Z.pos (brk s)) :: EvRelease f NULL
          :: EvAlloc Fam_obj (tp_basicsize t) (Z.pos (brk s)) :: trace s /\
      heap (snd (type_call t args kwds s)) = delete (Z.pos (brk s)) (heap s) /\
      violations (snd (type_call t args kwds s)) = violations s)).

(** A type whose destructor releases the buffer through family [f] destroys
    safely an instance that [tp_new] made and that no init has given a
    buffer: right after [tp_new], and after an init that failed in the
    argument parser. *)
Definition destroys_unallocated_safely (t : PyTypeObject) (f : family) : Prop :=
  forall s self s1,
    tp_new t (tp_basicsize t) s = (Some self, s1) ->
    buffer self = NULL /\
    (forall s2,
       (s2 = s1 \/
        exists args kwds e,
          PyArg_ParseTupleAndKeywords args kwds "size" = inl e /\
          tp_init t self args kwds s1 = (-1, self, s2)) ->
       trace (tp_dealloc t self s2)
         = EvRelease Fam_obj (ob_base self) :: EvRelease f NULL :: trace s2 /\
       violations (tp_dealloc t self s2) = violations s2 /\
       violations s2 = violations s1 /\
       heap (tp_dealloc t self s2) = delete (ob_base self) (heap s1)).

(** [size] is read-only on the handles of [t]: on any handle the call of the
    type produced, an assignment to [size] fails and the stored size stays
    what it was. *)
Definition size_is_read_only (t : PyTypeObject) : Prop :=
  forall args kwds s obj s1,
    type_call t args kwds s = (Some obj, s1) ->
    forall v,
      fst (fst (setattr t obj "size" (Some v) s1)) = -1 /\
      size (snd (fst (setattr t obj "size" (Some v) s1))) = size obj.

(** A call of [py_bytes_of_size] reaches an allocator when its first new
    event is a request. *)
Definition bytes_call_reaches_allocator
    (args : list PyVal) (kwds : list (string * PyVal)) (s : World) : Prop :=
  exists f m p,
    trace (snd (py_bytes_of_size args kwds s)) = EvAlloc f m p :: trace s.

(** The counter after [k] has been added to it in a [Py_ssize_t]. *)
Definition bump (k : Z) (r : option Z) : option Z :=
  (fun c => to_ssize_t (c + k)) <$> r.

(** The host answers of a run in which nothing fails after the module has
    been created. *)
Definition host_never_fails : Prop :=
  type_ready addr_CMallocObjectType = None /\
  add_object "CMalloc" = None /\
  type_ready addr_PyRawMallocObjectType = None /\
  add_object "PyRawMalloc" = None /\
  type_ready addr_PyMallocObjectType = None /\
  add_object "PyMalloc" = None.

(** The three type objects and the module are four different objects. *)
Definition addresses_distinct : Prop :=
  addr_CMallocObjectType <> addr_PyRawMallocObjectType /\
  addr_CMallocObjectType <> addr_PyMallocObjectType /\
  addr_PyRawMallocObjectType <> addr_PyMallocObjectType /\
  forall m, module_create = Some m ->
    Z.pos m <> addr_CMallocObjectType /\
    Z.pos m <> addr_PyRawMallocObjectType /\
    Z.pos m <> addr_PyMallocObjectType.

(** The dictionary of the module once the three types are registered. *)
Definition cMemLeak_dict : gmap string attr :=
  <["PyMalloc" := AttrType addr_PyMallocObjectType]>
    (<["PyRawMalloc" := AttrType addr_PyRawMallocObjectType]>
       (<["CMalloc" := AttrType addr_CMallocObjectType]>
          (list_to_map (map (fun d => (ml_name d, AttrFunction d)) MemLeakMethods)))).

(** The instance [tp_alloc] returns when the object allocator serves the
    request, and the world it leaves. *)
Definition fresh_handle (s : World) : MallocObject :=
  {| ob_base := Z.pos (brk s); size := 0; buffer := NULL |}.

Definition stored (k : Z) (s : World) : World :=
  log (EvAlloc Fam_obj k (Z.pos (brk s)))
    (with_heap (<[Z.pos (brk s) := Block Fam_obj k]> (heap s))
               (brk s + Z.to_pos k)%positive s).

(** [tp_init] of [t] on these arguments is the one call [alloc 1] of the
    allocator of family [f]: its result, handle and world are those of that
    call; a served request leaves a handle of size 1 that owns a live block
    of one byte, a refused one fails; and when both the instance and the
    byte are served the call of the type returns such a handle, whose [size]
    attribute reads 1. *)
Definition allocates_one_byte (t : PyTypeObject)
    (alloc : Z -> World -> ptr * World) (f : family)
    (args : list PyVal) (kwds : list (string * PyVal)) : Prop :=
  (forall self s,
     tp_init t self args kwds s
       = (if fst (alloc 1 s) =? NULL then -1 else 0,
          set_buffer (fst (alloc 1 s)) (set_size 1 self),
          snd (alloc 1 s))) /\
  (forall self s,
     grant (heap s) f 1 = true ->
     tp_init t self args kwds s
       = (0, set_buffer (Z.pos (brk s)) (set_size 1 self),
          log (EvAlloc f 1 (Z.pos (brk s)))
            (with_heap (<[Z.pos (brk s) := Block f 1]> (heap s))
                       (brk s + 1)%positive s))) /\
  (forall self s,
     grant (heap s) f 1 = false ->
     tp_init t self args kwds s
       = (-1, set_buffer NULL (set_size 1 self), log (EvAlloc f 1 NULL) s)) /\
  (forall s,
     grant (heap s) Fam_obj (tp_basicsize t) = true ->
     grant (heap (stored (tp_basicsize t) s)) f 1 = true ->
     exists obj s1,
       type_call t args kwds s = (Some obj, s1) /\
       size obj = 1 /\
       buffer obj <> NULL /\
       heap s1 !! buffer obj = Some (Block f 1) /\
       getattr t obj "size" s1 = (Some 1, s1)).

(** What [tp_init] of [t], which allocates from family [f], establishes:
    it returns 0 or -1, never moves the instance and never touches the
    objects.  It releases nothing: it appends at most one event to the
    trace, a request to [f] whose answer is the buffer stored, and no
    violation; when it returns -1 the heap is the one it started from; when
    it returns 0 the heap is the one it started from with one block added,
    the buffer, a live block of [f] whose size is the size stored, at least
    one byte, and the error indicator is as it was. *)
Definition init_establishes (t : PyTypeObject) (f : family) : Prop :=
  forall self args kwds s r self' s',
    tp_init t self args kwds s = (r, self', s') ->
    (r = 0 \/ r = -1) /\
    ob_base self' = ob_base self /\
    objs s' = objs s /\ violations s' = violations s /\
    (trace s' = trace s \/
     exists m, trace s' = EvAlloc f m (buffer self') :: trace s) /\
    (r = -1 -> heap s' = heap s) /\
    (r = 0 ->
     buffer self' <> NULL /\
     1 <= size self' < modulus /\
     heap s' !! buffer self' = Some (Block f (size self')) /\
     err s' = err s /\
     trace s' = EvAlloc f (size self') (buffer self') :: trace s /\
     heap s' = <[buffer self' := Block f (size self')]> (heap s)).

(** A handle constructed from a size [n >= 1] reads [n] from its [size]
    attribute and owns a block of [n] bytes of family [f]. *)
Definition size_reads_back (t : PyTypeObject) (f : family) : Prop :=
  forall args kwds n s obj s1,
    PyArg_ParseTupleAndKeywords args kwds "size" = inr n ->
    1 <= n ->
    type_call t args kwds s = (Some obj, s1) ->
    getattr t obj "size" s1 = (Some n, s1) /\
    buffer obj <> NULL /\
    heap s1 !! buffer obj = Some (Block f n).

(** Constructing a handle of [t] and destroying it gives the heap back as it
    was, with no invalid release. *)
Definition lifecycle_restores_heap (t : PyTypeObject) : Prop :=
  forall args kwds s obj s1,
    world_ok s ->
    type_call t args kwds s = (Some obj, s1) ->
    heap (tp_dealloc t obj s1) = heap s /\
    violations (tp_dealloc t obj s1) = violations s /\
    world_ok (tp_dealloc t obj s1).

(** A second successful [tp_init] on a handle of [t] takes a new buffer and
    drops the first without releasing it: the first block stays live, also
    after the handle is destroyed. *)
Definition second_init_leaks (t : PyTypeObject) (f : family) : Prop :=
  forall self a1 k1 a2 k2 s self1 s1 self2 s2,
    tp_init t self a1 k1 s = (0, self1, s1) ->
    tp_init t self1 a2 k2 s1 = (0, self2, s2) ->
    buffer self2 <> buffer self1 /\
    heap s2 !! buffer self1 = Some (Block f (size self1)) /\
    heap (tp_dealloc t self2 s2) !! buffer self1 = Some (Block f (size self1)).

(** The call of [t] returns an object exactly when the storage of the
    instance is served, the argument parses, and the buffer request, made
    with the instance already stored, is served; and when the storage of the
    instance is refused, [tp_init] is not run. *)
Definition construction_succeeds_iff (t : PyTypeObject) (f : family) : Prop :=
  forall args kwds s,
    (is_Some (fst (type_call t args kwds s)) <->
     grant (heap s) Fam_obj (tp_basicsize t) = true /\
     exists n,
       PyArg_ParseTupleAndKeywords args kwds "size" = inr n /\
       grant (<[Z.pos (brk s) := Block Fam_obj (tp_basicsize t)]> (heap s))
             f (requested n) = true) /\
    (grant (heap s) Fam_obj (tp_basicsize t) = false ->
     type_call t args kwds s
       = (None, PyErr_NoMemory (log (EvAlloc Fam_obj (tp_basicsize t) NULL) s))).

(** Between [s] and [s'] the object [x] has been handed to [_Py_Dealloc]:
    the events appended to the trace include that call. *)
Definition handed_to_dealloc (x : ptr) (s s' : World) : Prop :=
  exists evs, trace s' = evs ++ trace s /\ In (EvDealloc x) evs.

Ltac init_parsed H :=
  rewrite H; unfold init_result, requested; cbn [size set_size];
  destruct (to_size_t _ =? 0); cbn [size set_size];
  match goal with
  | |- context [raw_alloc ?f ?n ?s] =>
      let p := fresh "p" in let s1 := fresh "s" in
      destruct (raw_alloc f n s) as [p s1];
      cbn [fst snd buffer set_buffer]; destruct (p =? NULL); reflexivity
  end.

(** * Properties *)

(** ** Machine integers *)

Lemma modulus_double : modulus = 2 * half_modulus.
Proof.
  unfold modulus, half_modulus.
  replace (Z.pos w) with (Z.succ (Z.pos w - 1)) at 1 by lia.
  rewrite Z.pow_succ_r; lia.
Qed.

Lemma half_modulus_pos : 0 < half_modulus.
Proof. unfold half_modulus. apply Z.pow_pos_nonneg; lia. Qed.

Lemma modulus_pos : 0 < modulus.
Proof. rewrite modulus_double. pose proof half_modulus_pos. lia. Qed.

Lemma to_ssize_t_id z :
  PY_SSIZE_T_MIN <= z <= PY_SSIZE_T_MAX -> to_ssize_t z = z.
Proof.
  unfold PY_SSIZE_T_MIN, PY_SSIZE_T_MAX, to_ssize_t. intros H.
  pose proof modulus_double. rewrite Z.mod_small; lia.
Qed.

Lemma to_ssize_t_range z :
  PY_SSIZE_T_MIN <= to_ssize_t z <= PY_SSIZE_T_MAX.
Proof.
  unfold PY_SSIZE_T_MIN, PY_SSIZE_T_MAX, to_ssize_t.
  pose proof modulus_double. pose proof modulus_pos.
  pose proof (Z.mod_pos_bound (z + half_modulus) modulus). lia.
Qed.

Lemma to_ssize_t_add a b : to_ssize_t (to_ssize_t a + b) = to_ssize_t (a + b).
Proof.
  unfold to_ssize_t. f_equal.
  replace ((a + half_modulus) mod modulus - half_modulus + b + half_modulus)
    with ((a + half_modulus) mod modulus + b) by lia.
  replace (a + b + half_modulus) with ((a + half_modulus) + b) by lia.
  rewrite Zplus_mod_idemp_l. reflexivity.
Qed.

Lemma to_size_t_small z : 0 <= z < modulus -> to_size_t z = z.
Proof. intros H. unfold to_size_t. apply Z.mod_small. exact H. Qed.

Lemma to_size_t_negative n :
  PY_SSIZE_T_MIN <= n < 0 -> to_size_t n = n + modulus.
Proof.
  unfold PY_SSIZE_T_MIN, to_size_t. intros H.
  pose proof modulus_double. pose proof half_modulus_pos.
  symmetry. apply Z.mod_unique with (q := -1); lia.
Qed.

Lemma to_ssize_t_to_size_t n :
  PY_SSIZE_T_MIN <= n <= PY_SSIZE_T_MAX -> to_ssize_t (to_size_t n) = n.
Proof.
  intros H. unfold to_ssize_t, to_size_t.
  pose proof modulus_pos.
  rewrite Zplus_mod_idemp_l. apply (to_ssize_t_id n H).
Qed.

Lemma to_size_t_one : to_size_t 1 = 1.
Proof.
  apply to_size_t_small. pose proof modulus_double. pose proof half_modulus_pos. lia.
Qed.

Lemma requested_zero : requested 0 = 1.
Proof. unfold requested, to_size_t. rewrite Z.mod_0_l; [reflexivity | pose proof modulus_pos; lia]. Qed.

Lemma requested_one : requested 1 = 1.
Proof. unfold requested. rewrite to_size_t_one. reflexivity. Qed.

Lemma requested_negative n :
  PY_SSIZE_T_MIN <= n < 0 -> requested n = n + modulus.
Proof.
  intros H. unfold requested. rewrite (to_size_t_negative n H).
  unfold PY_SSIZE_T_MIN in H. pose proof modulus_double. pose proof half_modulus_pos.
  destruct (Z.eqb_spec (n + modulus) 0); [lia | reflexivity].
Qed.

(** ** The argument parser *)

Lemma convert_n_error v e : convert_n v = inl e -> InvalidArgument e.
Proof.
  unfold convert_n, InvalidArgument. destruct v as [z | tn].
  - destruct (_ && _); intros [= <-]; auto.
  - intros [= <-]; auto.
Qed.

Lemma convert_n_range v n :
  convert_n v = inr n -> PY_SSIZE_T_MIN <= n <= PY_SSIZE_T_MAX.
Proof.
  unfold convert_n. destruct v as [z | tn]; [| discriminate].
  destruct (Z.leb_spec PY_SSIZE_T_MIN z), (Z.leb_spec z PY_SSIZE_T_MAX);
    simpl; try discriminate.
  intros [= <-]. lia.
Qed.

Lemma parse_error args kwds kw e :
  PyArg_ParseTupleAndKeywords args kwds kw = inl e -> InvalidArgument e.
Proof.
  unfold PyArg_ParseTupleAndKeywords.
  destruct (1 <? _)%nat; [intros [= <-]; left; reflexivity |].
  destruct args as [| v [| v' args]]; destruct kwds as [| [k u] [| kv kwds]];
    cbn beta iota;
    try (intros [= <-]; left; reflexivity);
    try apply convert_n_error.
  all: destruct (String.eqb k kw); [apply convert_n_error | intros [= <-]; left; reflexivity].
Qed.

Lemma parse_range args kwds kw n :
  PyArg_ParseTupleAndKeywords args kwds kw = inr n ->
  PY_SSIZE_T_MIN <= n <= PY_SSIZE_T_MAX.
Proof.
  unfold PyArg_ParseTupleAndKeywords.
  destruct (1 <? _)%nat; [discriminate |].
  destruct args as [| v [| v' args]]; destruct kwds as [| [k u] [| kv kwds]];
    cbn beta iota; try discriminate; try apply convert_n_range.
  all: destruct (String.eqb k kw); [apply convert_n_range | discriminate].
Qed.

(** ** The allocators *)

Lemma raw_alloc_refused f n s :
  grant (heap s) f n = false ->
  raw_alloc f n s = (NULL, log (EvAlloc f n NULL) s).
Proof. intros H. unfold raw_alloc. rewrite H. reflexivity. Qed.

Lemma raw_alloc_served f n s :
  grant (heap s) f n = true ->
  raw_alloc f n s =
    (Z.pos (brk s),
     log (EvAlloc f n (Z.pos (brk s)))
       (with_heap (<[Z.pos (brk s) := Block f n]> (heap s))
                  (brk s + Z.to_pos n)%positive s)).
Proof. intros H. unfold raw_alloc. rewrite H. reflexivity. Qed.

(** Whatever the system decides, a request is logged as one event and leaves
    the error indicator, the objects and the violations as they were; a
    served request yields a live block of the family asked, a refused one
    leaves the heap alone. *)
Lemma raw_alloc_spec f n s :
  exists p s1,
    raw_alloc f n s = (p, s1) /\
    trace s1 = EvAlloc f n p :: trace s /\
    err s1 = err s /\ objs s1 = objs s /\ violations s1 = violations s /\
    (p <> NULL -> heap s1 !! p = Some (Block f n)) /\
    (p = NULL -> s1 = log (EvAlloc f n NULL) s).
Proof.
  unfold raw_alloc. destruct (grant (heap s) f n).
  - eexists _, _. split; [reflexivity |]. cbn.
    repeat split; try reflexivity.
    + intros _. apply lookup_insert_eq.
    + unfold NULL. intros H. discriminate H.
  - eexists _, _. split; [reflexivity |]. cbn.
    repeat split; try reflexivity. intros H. exfalso. apply H. reflexivity.
Qed.

Lemma raw_alloc_null f n s s1 :
  raw_alloc f n s = (NULL, s1) -> s1 = log (EvAlloc f n NULL) s.
Proof.
  unfold raw_alloc. destruct (grant (heap s) f n).
  - unfold NULL. intros H. discriminate H.
  - intros [= <-]. reflexivity.
Qed.

Lemma raw_release_NULL f s :
  raw_release f NULL s = log (EvRelease f NULL) s.
Proof. reflexivity. Qed.

Lemma raw_release_matched f p n s :
  p <> NULL -> heap s !! p = Some (Block f n) ->
  raw_release f p s = with_heap (delete p (heap s)) (brk s) (log (EvRelease f p) s).
Proof.
  intros Hp Hl. unfold raw_release.
  destruct (Z.eqb_spec p NULL) as [E | _]; [contradiction |].
  cbn [heap log]. rewrite Hl. cbn [blk_family].
  destruct (decide (f = f)) as [_ | N]; [reflexivity | contradiction].
Qed.

Lemma raw_release_mismatched f g p n s :
  p <> NULL -> g <> f -> heap s !! p = Some (Block g n) ->
  raw_release f p s = flag (Mismatched f g p) (log (EvRelease f p) s).
Proof.
  intros Hp Hg Hl. unfold raw_release.
  destruct (Z.eqb_spec p NULL) as [E | _]; [contradiction |].
  cbn [heap log]. rewrite Hl. cbn [blk_family].
  destruct (decide (g = f)) as [E | _]; [contradiction | reflexivity].
Qed.

(** ** What the three [tp_init] functions compute *)

Lemma CMallocObject_init_parse_error self args kwds s e :
  PyArg_ParseTupleAndKeywords args kwds "size" = inl e ->
  CMallocObject_init self args kwds s = (-1, self, PyErr_Set e s).
Proof. intros H. unfold CMallocObject_init. rewrite H. reflexivity. Qed.

Lemma PyRawMallocObject_init_parse_error self args kwds s e :
  PyArg_ParseTupleAndKeywords args kwds "size" = inl e ->
  PyRawMallocObject_init self args kwds s = (-1, self, PyErr_Set e s).
Proof. intros H. unfold PyRawMallocObject_init. rewrite H. reflexivity. Qed.

Lemma PyMallocObject_init_parse_error self args kwds s e :
  PyArg_ParseTupleAndKeywords args kwds "size" = inl e ->
  PyMallocObject_init self args kwds s = (-1, self, PyErr_Set e s).
Proof. intros H. unfold PyMallocObject_init. rewrite H. reflexivity. Qed.

Lemma CMallocObject_init_parsed self args kwds s n :
  PyArg_ParseTupleAndKeywords args kwds "size" = inr n ->
  CMallocObject_init self args kwds s = init_result self n (malloc (requested n) s).
Proof. intros H. unfold CMallocObject_init, malloc. init_parsed H. Qed.

Lemma PyRawMallocObject_init_parsed self args kwds s n :
  PyArg_ParseTupleAndKeywords args kwds "size" = inr n ->
  PyRawMallocObject_init self args kwds s = init_result self n (PyMem_Malloc (requested n) s).
Proof. intros H. unfold PyRawMallocObject_init, PyMem_Malloc. init_parsed H. Qed.

Lemma PyMallocObject_init_parsed self args kwds s n :
  PyArg_ParseTupleAndKeywords args kwds "size" = inr n ->
  PyMallocObject_init self args kwds s = init_result self n (PyMem_Malloc (requested n) s).
Proof. intros H. unfold PyMallocObject_init, PyMem_Malloc. init_parsed H. Qed.

(** ** Destroying a handle that owns no buffer *)

Lemma tp_free_live self k s :
  ob_base self <> NULL ->
  heap s !! ob_base self = Some (Block Fam_obj k) ->
  tp_free self s =
    with_heap (delete (ob_base self) (heap s)) (brk s)
      (log (EvRelease Fam_obj (ob_base self)) s).
Proof.
  intros Hb Hl. unfold tp_free, PyObject_Free.
  apply raw_release_matched with (n := k); assumption.
Qed.

Lemma CMallocObject_dealloc_null self k s :
  buffer self = NULL -> ob_base self <> NULL ->
  heap s !! ob_base self = Some (Block Fam_obj k) ->
  CMallocObject_dealloc self s = dealloc_no_buffer Fam_libc self s.
Proof.
  intros Hn Hb Hl. unfold CMallocObject_dealloc, free. rewrite Hn, raw_release_NULL.
  rewrite (tp_free_live self k); [reflexivity | assumption | exact Hl].
Qed.

Lemma PyRawMallocObject_dealloc_null self k s :
  buffer self = NULL -> ob_base self <> NULL ->
  heap s !! ob_base self = Some (Block Fam_obj k) ->
  PyRawMallocObject_dealloc self s = dealloc_no_buffer Fam_raw self s.
Proof.
  intros Hn Hb Hl. unfold PyRawMallocObject_dealloc, PyMem_RawFree.
  rewrite Hn, raw_release_NULL.
  rewrite (tp_free_live self k); [reflexivity | assumption | exact Hl].
Qed.

Lemma PyMallocObject_dealloc_null self k s :
  buffer self = NULL -> ob_base self <> NULL ->
  heap s !! ob_base self = Some (Block Fam_obj k) ->
  PyMallocObject_dealloc self s = dealloc_no_buffer Fam_mem self s.
Proof.
  intros Hn Hb Hl. unfold PyMallocObject_dealloc, PyMem_Free.
  rewrite Hn, raw_release_NULL.
  rewrite (tp_free_live self k); [reflexivity | assumption | exact Hl].
Qed.

(** What [tp_alloc] returns: nothing and [MemoryError], or a zero-filled
    instance at a live, non-null address of the object allocator. *)
Lemma tp_alloc_spec k s :
  (tp_alloc k s = (None, PyErr_NoMemory (log (EvAlloc Fam_obj k NULL) s))
   /\ grant (heap s) Fam_obj k = false)
  \/ (exists self s1,
        tp_alloc k s = (Some self, s1) /\
        grant (heap s) Fam_obj k = true /\
        size self = 0 /\ buffer self = NULL /\ ob_base self = Z.pos (brk s) /\
        heap s1 = <[ob_base self := Block Fam_obj k]> (heap s) /\
        trace s1 = EvAlloc Fam_obj k (ob_base self) :: trace s /\
        err s1 = err s /\ objs s1 = objs s /\ violations s1 = violations s).
Proof.
  unfold tp_alloc, PyObject_Malloc, raw_alloc.
  destruct (grant (heap s) Fam_obj k).
  - right. eexists _, _. cbn. repeat split; reflexivity.
  - left. split; reflexivity.
Qed.

(** ** Constructing a handle *)

(** The three [tp_new] functions are [tp_alloc] followed by two stores that
    repeat what the zero fill already left there. *)
Lemma CMallocObject_new_spec k s self s1 :
  CMallocObject_new k s = (Some self, s1) ->
  tp_alloc k s = (Some self, s1) /\ size self = 0 /\ buffer self = NULL.
Proof.
  unfold CMallocObject_new. destruct (tp_alloc_spec k s) as [[E _] | (o & s2 & E & _ & Hs & Hb & _)];
    rewrite E; [discriminate |].
  intros [= <- <-]. destruct o as [b z p]. cbn in *. subst. auto.
Qed.

Lemma PyRawMallocObject_new_spec k s self s1 :
  PyRawMallocObject_new k s = (Some self, s1) ->
  tp_alloc k s = (Some self, s1) /\ size self = 0 /\ buffer self = NULL.
Proof.
  unfold PyRawMallocObject_new. destruct (tp_alloc_spec k s) as [[E _] | (o & s2 & E & _ & Hs & Hb & _)];
    rewrite E; [discriminate |].
  intros [= <- <-]. destruct o as [b z p]. cbn in *. subst. auto.
Qed.

Lemma PyMallocObject_new_spec k s self s1 :
  PyMallocObject_new k s = (Some self, s1) ->
  tp_alloc k s = (Some self, s1) /\ size self = 0 /\ buffer self = NULL.
Proof.
  unfold PyMallocObject_new. destruct (tp_alloc_spec k s) as [[E _] | (o & s2 & E & _ & Hs & Hb & _)];
    rewrite E; [discriminate |].
  intros [= <- <-]. destruct o as [b z p]. cbn in *. subst. auto.
Qed.

(** A new instance lives at a non-null address that the object allocator
    has just handed out. *)
Lemma tp_alloc_live k s self s1 :
  tp_alloc k s = (Some self, s1) ->
  ob_base self <> NULL /\ heap s1 !! ob_base self = Some (Block Fam_obj k) /\
  ob_base self = Z.pos (brk s) /\
  heap s1 = <[ob_base self := Block Fam_obj k]> (heap s) /\
  trace s1 = EvAlloc Fam_obj k (ob_base self) :: trace s /\
  err s1 = err s /\ violations s1 = violations s /\
  grant (heap s) Fam_obj k = true.
Proof.
  destruct (tp_alloc_spec k s) as [[E _] | (o & s2 & E & Hg & _ & _ & Hb & Hh & Ht & He & _ & Hv)];
    rewrite E; [discriminate |].
  intros [= <- <-]. repeat split; try assumption.
  - rewrite Hb. unfold NULL. discriminate.
  - rewrite Hh. apply lookup_insert_eq.
Qed.

Lemma dealloc_no_buffer_spec f self s :
  trace (dealloc_no_buffer f self s)
    = EvRelease Fam_obj (ob_base self) :: EvRelease f NULL :: trace s /\
  violations (dealloc_no_buffer f self s) = violations s /\
  heap (dealloc_no_buffer f self s) = delete (ob_base self) (heap s) /\
  err (dealloc_no_buffer f self s) = err s.
Proof. repeat split; reflexivity. Qed.

(** C10. For each of the three handle types, destroying an instance whose
    buffer field is still the null pointer that [tp_new] stored (no init ran,
    or init failed in the argument parser) is safe: the destructor hands the
    null pointer to the type's release function, which does nothing with it,
    no invalid release is recorded, and the only block given back is the
    storage of the instance itself. *)
Theorem dealloc_without_buffer_is_safe :
  destroys_unallocated_safely CMallocObjectType Fam_libc /\
  destroys_unallocated_safely PyRawMallocObjectType Fam_raw /\
  destroys_unallocated_safely PyMallocObjectType Fam_mem.
Proof.
  unfold destroys_unallocated_safely.
  cbn [tp_new tp_init tp_dealloc tp_basicsize
       CMallocObjectType PyRawMallocObjectType PyMallocObjectType].
  split; [| split]; intros s self s1 Hnew.
  - apply CMallocObject_new_spec in Hnew as (Ha & _ & Hb).
    apply tp_alloc_live in Ha as (Hnz & Hl & _).
    split; [exact Hb |]. intros s2 [-> | (args & kwds & e & Hp & Hi)].
    + rewrite (CMallocObject_dealloc_null self _ s1 Hb Hnz Hl). repeat split; reflexivity.
    + rewrite (CMallocObject_init_parse_error self args kwds s1 e Hp) in Hi.
      injection Hi as <-.
      rewrite (CMallocObject_dealloc_null self _ (PyErr_Set e s1) Hb Hnz Hl).
      repeat split; reflexivity.
  - apply PyRawMallocObject_new_spec in Hnew as (Ha & _ & Hb).
    apply tp_alloc_live in Ha as (Hnz & Hl & _).
    split; [exact Hb |]. intros s2 [-> | (args & kwds & e & Hp & Hi)].
    + rewrite (PyRawMallocObject_dealloc_null self _ s1 Hb Hnz Hl). repeat split; reflexivity.
    + rewrite (PyRawMallocObject_init_parse_error self args kwds s1 e Hp) in Hi.
      injection Hi as <-.
      rewrite (PyRawMallocObject_dealloc_null self _ (PyErr_Set e s1) Hb Hnz Hl).
      repeat split; reflexivity.
  - apply PyMallocObject_new_spec in Hnew as (Ha & _ & Hb).
    apply tp_alloc_live in Ha as (Hnz & Hl & _).
    split; [exact Hb |]. intros s2 [-> | (args & kwds & e & Hp & Hi)].
    + rewrite (PyMallocObject_dealloc_null self _ s1 Hb Hnz Hl). repeat split; reflexivity.
    + rewrite (PyMallocObject_init_parse_error self args kwds s1 e Hp) in Hi.
      injection Hi as <-.
      rewrite (PyMallocObject_dealloc_null self _ (PyErr_Set e s1) Hb Hnz Hl).
      repeat split; reflexivity.
Qed.

Ltac reject_call new_def init_error dealloc_null :=
  match goal with
  | Hp : PyArg_ParseTupleAndKeywords ?args ?kwds _ = inl ?e |- _ =>
      split; [intros self s; apply init_error; exact Hp |];
      intros s; unfold type_call;
      cbn [tp_new tp_init tp_dealloc tp_basicsize
           CMallocObjectType PyRawMallocObjectType PyMallocObjectType];
      unfold new_def;
      destruct (tp_alloc_spec sizeof_MallocObject s)
        as [[E Hg] | (o & s1 & E & Hg & Hs & Hb & Ha & Hh & Ht & He & _ & Hv)];
      rewrite E;
      [ split; [reflexivity | intros Hg'; rewrite Hg' in Hg; discriminate Hg] |];
      rewrite (init_error _ args kwds s1 e Hp);
      cbn [Z.ltb Z.compare fst snd];
      assert (Hl : heap (PyErr_Set e s1) !! ob_base (set_buffer NULL (set_size 0 o))
                   = Some (Block Fam_obj sizeof_MallocObject))
        by (cbn; rewrite Hh; apply lookup_insert_eq);
      assert (Hnz : ob_base (set_buffer NULL (set_size 0 o)) <> NULL)
        by (cbn; rewrite Ha; unfold NULL; discriminate);
      rewrite (dealloc_null (set_buffer NULL (set_size 0 o)) _ (PyErr_Set e s1) eq_refl Hnz Hl);
      split; [reflexivity | intros _];
      cbn; rewrite Ht, Hh, Hv, Ha, delete_insert_eq; repeat split; reflexivity
  end.

(** C8. When the size argument is missing or malformed, so that the argument
    parser fails with [e]: [e] is one of the parser's errors; each of the
    three [tp_init] functions returns -1 with the instance untouched and the
    world changed in its error indicator only, so no allocator is called; the
    call of the type hands no object to the caller; and [py_bytes_of_size]
    returns NULL with the world changed in its error indicator only. *)
Theorem malformed_size_fails_before_allocating args kwds e :
  PyArg_ParseTupleAndKeywords args kwds "size" = inl e ->
  InvalidArgument e /\
  rejects_before_allocating CMallocObjectType Fam_libc args kwds e /\
  rejects_before_allocating PyRawMallocObjectType Fam_raw args kwds e /\
  rejects_before_allocating PyMallocObjectType Fam_mem args kwds e /\
  (forall s, py_bytes_of_size args kwds s = (None, PyErr_Set e s)).
Proof.
  intros Hp. split; [exact (parse_error _ _ _ _ Hp) |].
  unfold rejects_before_allocating.
  split; [| split; [| split]].
  - reject_call CMallocObject_new CMallocObject_init_parse_error CMallocObject_dealloc_null.
  - reject_call PyRawMallocObject_new PyRawMallocObject_init_parse_error
      PyRawMallocObject_dealloc_null.
  - reject_call PyMallocObject_new PyMallocObject_init_parse_error
      PyMallocObject_dealloc_null.
  - intros s. unfold py_bytes_of_size. rewrite Hp. reflexivity.
Qed.

(** ** Allocation failure in [tp_init] *)

(** C2. When the argument parses to [n] and the allocator of the type refuses
    the request, each of the three [tp_init] functions returns -1 with a null
    buffer, and the error indicator is what it was before the call: the
    failure is reported to the host without an exception, and in particular
    without [MemoryError]. *)
Theorem allocation_failure_sets_no_exception self args kwds n s s1 :
  PyArg_ParseTupleAndKeywords args kwds "size" = inr n ->
  (malloc (requested n) s = (NULL, s1) ->
   CMallocObject_init self args kwds s
     = (-1, set_buffer NULL (set_size (requested n) self), s1) /\
   err s1 = err s) /\
  (PyMem_Malloc (requested n) s = (NULL, s1) ->
   PyRawMallocObject_init self args kwds s
     = (-1, set_buffer NULL (set_size (requested n) self), s1) /\
   PyMallocObject_init self args kwds s
     = (-1, set_buffer NULL (set_size (requested n) self), s1) /\
   err s1 = err s).
Proof.
  intros Hp. split; intros Hm.
  - rewrite (CMallocObject_init_parsed self args kwds s n Hp), Hm.
    split; [reflexivity |]. apply raw_alloc_null in Hm. subst s1. reflexivity.
  - rewrite (PyRawMallocObject_init_parsed self args kwds s n Hp),
            (PyMallocObject_init_parsed self args kwds s n Hp), Hm.
    split; [reflexivity | split; [reflexivity |]].
    apply raw_alloc_null in Hm. subst s1. reflexivity.
Qed.

Ltac failed_call new_def init_parsed dealloc_null :=
  match goal with
  | Hp : PyArg_ParseTupleAndKeywords ?args ?kwds _ = inr ?n,
    Hg : grant (heap ?s) Fam_obj sizeof_MallocObject = true,
    Hr : forall h f, f <> Fam_obj -> grant h f (requested ?n) = false,
    Hc : err ?s = None |- _ =>
      unfold PyObject_Call, type_call;
      cbn [tp_new tp_init tp_dealloc tp_basicsize
           CMallocObjectType PyRawMallocObjectType PyMallocObjectType];
      unfold new_def;
      destruct (tp_alloc_spec sizeof_MallocObject s)
        as [[_ Hg'] | (o & s1 & E & _ & Hs & Hb & Ha & Hh & Ht & He & _ & Hv)];
      [rewrite Hg' in Hg; discriminate Hg |];
      rewrite E, (init_parsed _ args kwds s1 n Hp);
      unfold malloc, PyMem_Malloc;
      rewrite raw_alloc_refused by (apply Hr; discriminate);
      unfold init_result; cbn [fst snd Z.eqb NULL Z.ltb Z.compare];
      match goal with
      | |- context [new_def] => idtac
      | |- context [?dealloc ?self ?s2] =>
          assert (Hl : heap s2 !! ob_base self = Some (Block Fam_obj sizeof_MallocObject))
            by (cbn; rewrite Hh; apply lookup_insert_eq);
          assert (Hnz : ob_base self <> NULL)
            by (cbn; rewrite Ha; unfold NULL; discriminate);
          rewrite (dealloc_null self _ s2 eq_refl Hnz Hl)
      end;
      cbn [err dealloc_no_buffer with_heap log]; rewrite He, Hc;
      eexists; split; reflexivity
  end.

(** What the caller of the type then sees: no object, and [SystemError]
    rather than [MemoryError]. *)
Lemma allocation_failure_surfaces_as_SystemError args kwds n s :
  PyArg_ParseTupleAndKeywords args kwds "size" = inr n ->
  err s = None ->
  grant (heap s) Fam_obj sizeof_MallocObject = true ->
  (forall h f, f <> Fam_obj -> grant h f (requested n) = false) ->
  forall t, In t handle_types ->
    exists s', PyObject_Call t args kwds s = (None, s') /\
               err s' = Some PyExc_SystemError.
Proof.
  intros Hp Hc Hg Hr t.
  unfold handle_types, PyInit_cMemLeak. cbn [map snd In].
  intros [<- | [<- | [<- | []]]].
  - failed_call CMallocObject_new CMallocObject_init_parsed CMallocObject_dealloc_null.
  - failed_call PyRawMallocObject_new PyRawMallocObject_init_parsed
      PyRawMallocObject_dealloc_null.
  - failed_call PyMallocObject_new PyMallocObject_init_parsed
      PyMallocObject_dealloc_null.
Qed.

(** ** The size a handle requests and stores *)

Lemma CMallocObject_init_requests args kwds n :
  PyArg_ParseTupleAndKeywords args kwds "size" = inr n ->
  init_requests CMallocObjectType Fam_libc args kwds (requested n).
Proof.
  intros Hp self s. cbn [tp_init CMallocObjectType].
  rewrite (CMallocObject_init_parsed self args kwds s n Hp). unfold malloc.
  destruct (raw_alloc_spec Fam_libc (requested n) s) as (p & s1 & E & Ht & _ & _ & _ & Hh & _).
  exists p, s1. rewrite E. auto.
Qed.

Lemma PyRawMallocObject_init_requests args kwds n :
  PyArg_ParseTupleAndKeywords args kwds "size" = inr n ->
  init_requests PyRawMallocObjectType Fam_mem args kwds (requested n).
Proof.
  intros Hp self s. cbn [tp_init PyRawMallocObjectType].
  rewrite (PyRawMallocObject_init_parsed self args kwds s n Hp). unfold PyMem_Malloc.
  destruct (raw_alloc_spec Fam_mem (requested n) s) as (p & s1 & E & Ht & _ & _ & _ & Hh & _).
  exists p, s1. rewrite E. auto.
Qed.

Lemma PyMallocObject_init_requests args kwds n :
  PyArg_ParseTupleAndKeywords args kwds "size" = inr n ->
  init_requests PyMallocObjectType Fam_mem args kwds (requested n).
Proof.
  intros Hp self s. cbn [tp_init PyMallocObjectType].
  rewrite (PyMallocObject_init_parsed self args kwds s n Hp). unfold PyMem_Malloc.
  destruct (raw_alloc_spec Fam_mem (requested n) s) as (p & s1 & E & Ht & _ & _ & _ & Hh & _).
  exists p, s1. rewrite E. auto.
Qed.

Lemma getattr_size_one_c self s :
  size self = 1 -> getattr CMallocObjectType self "size" s = (Some 1, s).
Proof.
  intros H. unfold getattr. cbn. unfold PyMember_GetOne. cbn.
  rewrite H, to_size_t_one. reflexivity.
Qed.

Lemma getattr_size_one_raw self s :
  size self = 1 -> getattr PyRawMallocObjectType self "size" s = (Some 1, s).
Proof.
  intros H. unfold getattr. cbn. unfold PyMember_GetOne. cbn.
  rewrite H, to_size_t_one. reflexivity.
Qed.

Lemma getattr_size_one_py self s :
  size self = 1 -> getattr PyMallocObjectType self "size" s = (Some 1, s).
Proof.
  intros H. unfold getattr. cbn. unfold PyMember_GetOne. cbn.
  rewrite H, to_size_t_one. reflexivity.
Qed.

(** A size argument that parses to 0 and one that parses to 1 give the same
    computation (same result, same handle, same world, whether the allocator
    serves the request or refuses it), with one request of one byte, after
    which the size attribute reads 1. *)
Lemma zero_and_one_same_call args0 kwds0 args1 kwds1 :
  PyArg_ParseTupleAndKeywords args0 kwds0 "size" = inr 0 ->
  PyArg_ParseTupleAndKeywords args1 kwds1 "size" = inr 1 ->
  (zero_as_one CMallocObjectType args0 kwds0 args1 kwds1 /\
   init_requests CMallocObjectType Fam_libc args0 kwds0 1) /\
  (zero_as_one PyRawMallocObjectType args0 kwds0 args1 kwds1 /\
   init_requests PyRawMallocObjectType Fam_mem args0 kwds0 1) /\
  (zero_as_one PyMallocObjectType args0 kwds0 args1 kwds1 /\
   init_requests PyMallocObjectType Fam_mem args0 kwds0 1).
Proof.
  intros H0 H1.
  pose proof (CMallocObject_init_requests _ _ _ H0) as R1.
  pose proof (PyRawMallocObject_init_requests _ _ _ H0) as R2.
  pose proof (PyMallocObject_init_requests _ _ _ H0) as R3.
  rewrite requested_zero in R1, R2, R3.
  assert (I1 : forall self s, CMallocObject_init self args0 kwds0 s
                              = CMallocObject_init self args1 kwds1 s).
  { intros. rewrite (CMallocObject_init_parsed _ _ _ _ _ H0),
      (CMallocObject_init_parsed _ _ _ _ _ H1).
    unfold init_result. rewrite requested_zero, requested_one. reflexivity. }
  assert (I2 : forall self s, PyRawMallocObject_init self args0 kwds0 s
                              = PyRawMallocObject_init self args1 kwds1 s).
  { intros. rewrite (PyRawMallocObject_init_parsed _ _ _ _ _ H0),
      (PyRawMallocObject_init_parsed _ _ _ _ _ H1).
    unfold init_result. rewrite requested_zero, requested_one. reflexivity. }
  assert (I3 : forall self s, PyMallocObject_init self args0 kwds0 s
                              = PyMallocObject_init self args1 kwds1 s).
  { intros. rewrite (PyMallocObject_init_parsed _ _ _ _ _ H0),
      (PyMallocObject_init_parsed _ _ _ _ _ H1).
    unfold init_result. rewrite requested_zero, requested_one. reflexivity. }
  unfold zero_as_one, type_call.
  cbn [tp_new tp_init tp_dealloc tp_basicsize
       CMallocObjectType PyRawMallocObjectType PyMallocObjectType].
  repeat split; try assumption.
  - intros s. destruct (CMallocObject_new _ s) as [[o |] s1]; [rewrite I1 |]; reflexivity.
  - intros self s r self' s'. destruct (R1 self s) as (p & s1 & E & _).
    cbn [tp_init CMallocObjectType] in E. rewrite E. intros [= _ <- <-].
    apply getattr_size_one_c. reflexivity.
  - intros s. destruct (PyRawMallocObject_new _ s) as [[o |] s1]; [rewrite I2 |]; reflexivity.
  - intros self s r self' s'. destruct (R2 self s) as (p & s1 & E & _).
    cbn [tp_init PyRawMallocObjectType] in E. rewrite E. intros [= _ <- <-].
    apply getattr_size_one_raw. reflexivity.
  - intros s. destruct (PyMallocObject_new _ s) as [[o |] s1]; [rewrite I3 |]; reflexivity.
  - intros self s r self' s'. destruct (R3 self s) as (p & s1 & E & _).
    cbn [tp_init PyMallocObjectType] in E. rewrite E. intros [= _ <- <-].
    apply getattr_size_one_py. reflexivity.
Qed.

(** ** Negative sizes *)

(** C9, as the code has it. A negative [n] that fits [Py_ssize_t] is accepted
    by the parser, by position and by name; stored in the [size_t] field it
    reads [n + 2^w], which is above [PY_SSIZE_T_MAX]; each of the three
    [tp_init] functions then asks its allocator for that many bytes.  In
    [py_bytes_of_size] the same value is passed on to
    [PyBytes_FromStringAndSize], whose parameter is signed again: the call
    fails with [SystemError] and no allocator is asked for anything. *)
Theorem negative_size_is_reinterpreted n :
  PY_SSIZE_T_MIN <= n < 0 ->
  PyArg_ParseTupleAndKeywords [PyLong n] [] "size" = inr n /\
  PyArg_ParseTupleAndKeywords [] [("size"%string, PyLong n)] "size" = inr n /\
  to_size_t n = n + modulus /\
  PY_SSIZE_T_MAX < n + modulus /\
  forall args kwds,
    PyArg_ParseTupleAndKeywords args kwds "size" = inr n ->
    init_requests CMallocObjectType Fam_libc args kwds (n + modulus) /\
    init_requests PyRawMallocObjectType Fam_mem args kwds (n + modulus) /\
    init_requests PyMallocObjectType Fam_mem args kwds (n + modulus) /\
    forall s,
      py_bytes_of_size args kwds s
        = PyBytes_FromStringAndSize (n + modulus) s /\
      py_bytes_of_size args kwds s = (None, PyErr_Set PyExc_SystemError s).
Proof.
  intros Hn.
  assert (Hc : convert_n (PyLong n) = inr n).
  { unfold convert_n.
    destruct (Z.leb_spec PY_SSIZE_T_MIN n); [| lia].
    destruct (Z.leb_spec n PY_SSIZE_T_MAX); [reflexivity |].
    unfold PY_SSIZE_T_MAX, PY_SSIZE_T_MIN in *. pose proof half_modulus_pos. lia. }
  split; [exact Hc |]. split; [cbn; exact Hc |].
  split; [apply to_size_t_negative; exact Hn |].
  split.
  { unfold PY_SSIZE_T_MAX, PY_SSIZE_T_MIN in *. pose proof modulus_double. lia. }
  intros args kwds Hp.
  pose proof (CMallocObject_init_requests _ _ _ Hp) as R1.
  pose proof (PyRawMallocObject_init_requests _ _ _ Hp) as R2.
  pose proof (PyMallocObject_init_requests _ _ _ Hp) as R3.
  rewrite (requested_negative n Hn) in R1, R2, R3.
  repeat split; try assumption.
  - unfold py_bytes_of_size. rewrite Hp, (to_size_t_negative n Hn). reflexivity.
  - unfold py_bytes_of_size, PyBytes_FromStringAndSize. rewrite Hp.
    rewrite to_ssize_t_to_size_t.
    + destruct (Z.ltb_spec n 0); [reflexivity | lia].
    + unfold PY_SSIZE_T_MAX, PY_SSIZE_T_MIN in *. pose proof half_modulus_pos. lia.
Qed.

(** ** The family a buffer comes from and the family it goes back to *)

Lemma raw_release_keeps f p s :
  (forall v, In v (violations s) -> In v (violations (raw_release f p s))) /\
  (forall ev, In ev (trace s) -> In ev (trace (raw_release f p s))).
Proof.
  unfold raw_release. destruct (p =? NULL); [cbn; auto |].
  cbn [heap log]. destruct (heap s !! p) as [b |]; [destruct (decide _) |];
    cbn; auto.
Qed.

(** C1. After a successful [PyRawMallocObject_init] the buffer is a live
    block of the [PyMem_Malloc] family, requested by that init; the
    destructor hands it to [PyMem_RawFree], the release function of the raw
    family, and that release is invalid: the two functions are not a matched
    pair. *)
Theorem PyRawMalloc_releases_through_another_family self args kwds s self' s' :
  PyRawMallocObject_init self args kwds s = (0, self', s') ->
  trace s' = EvAlloc Fam_mem (size self') (buffer self') :: trace s /\
  heap s' !! buffer self' = Some (Block Fam_mem (size self')) /\
  PyMem_RawFree (buffer self') s'
    = flag (Mismatched Fam_raw Fam_mem (buffer self'))
        (log (EvRelease Fam_raw (buffer self')) s') /\
  In (EvRelease Fam_raw (buffer self')) (trace (PyRawMallocObject_dealloc self' s')) /\
  In (Mismatched Fam_raw Fam_mem (buffer self'))
     (violations (PyRawMallocObject_dealloc self' s')).
Proof.
  destruct (PyArg_ParseTupleAndKeywords args kwds "size") as [e | n] eqn:Hp.
  - rewrite (PyRawMallocObject_init_parse_error _ _ _ _ _ Hp). discriminate.
  - destruct (PyRawMallocObject_init_requests _ _ _ Hp self s) as (p & s1 & E & Ht & Hh).
    cbn [tp_init PyRawMallocObjectType] in E. rewrite E.
    destruct (Z.eqb_spec p NULL) as [-> | Hnz]; [discriminate |].
    intros [= <- <-]. cbn [size buffer set_size set_buffer].
    specialize (Hh Hnz).
    assert (Hr : PyMem_RawFree p s1
                 = flag (Mismatched Fam_raw Fam_mem p) (log (EvRelease Fam_raw p) s1)).
    { unfold PyMem_RawFree.
      apply raw_release_mismatched with (n := requested n);
        [exact Hnz | discriminate | exact Hh]. }
    split; [exact Ht |]. split; [exact Hh |]. split; [exact Hr |].
    unfold PyRawMallocObject_dealloc, tp_free, PyObject_Free.
    cbn [buffer set_buffer]. rewrite Hr.
    split; apply raw_release_keeps; cbn; auto.
Qed.

(** The other two types release through the family they allocate from. *)
Lemma matched_types_release_their_buffer self args kwds s self' s' :
  (CMallocObject_init self args kwds s = (0, self', s') ->
   trace s' = EvAlloc Fam_libc (size self') (buffer self') :: trace s /\
   free (buffer self') s'
     = with_heap (delete (buffer self') (heap s')) (brk s')
         (log (EvRelease Fam_libc (buffer self')) s')) /\
  (PyMallocObject_init self args kwds s = (0, self', s') ->
   trace s' = EvAlloc Fam_mem (size self') (buffer self') :: trace s /\
   PyMem_Free (buffer self') s'
     = with_heap (delete (buffer self') (heap s')) (brk s')
         (log (EvRelease Fam_mem (buffer self')) s')).
Proof.
  destruct (PyArg_ParseTupleAndKeywords args kwds "size") as [e | n] eqn:Hp.
  - rewrite (CMallocObject_init_parse_error _ _ _ _ _ Hp),
            (PyMallocObject_init_parse_error _ _ _ _ _ Hp).
    split; discriminate.
  - split.
    + destruct (CMallocObject_init_requests _ _ _ Hp self s) as (p & s1 & E & Ht & Hh).
      cbn [tp_init CMallocObjectType] in E. rewrite E.
      destruct (Z.eqb_spec p NULL) as [-> | Hnz]; [discriminate |].
      intros [= <- <-]. cbn [size buffer set_size set_buffer].
      split; [exact Ht |]. unfold free.
      apply raw_release_matched with (n := requested n); auto.
    + destruct (PyMallocObject_init_requests _ _ _ Hp self s) as (p & s1 & E & Ht & Hh).
      cbn [tp_init PyMallocObjectType] in E. rewrite E.
      destruct (Z.eqb_spec p NULL) as [-> | Hnz]; [discriminate |].
      intros [= <- <-]. cbn [size buffer set_size set_buffer].
      split; [exact Ht |]. unfold PyMem_Free.
      apply raw_release_matched with (n := requested n); auto.
Qed.

(** ** Reference counts *)

Lemma bump_bump j k r : bump j (bump k r) = bump (k + j) r.
Proof.
  destruct r as [c |]; [| reflexivity]. unfold bump. cbn [fmap option_fmap option_map].
  rewrite to_ssize_t_add. do 2 f_equal. lia.
Qed.

Lemma bump_Some k c : bump k (Some c) = Some (to_ssize_t (c + k)).
Proof. reflexivity. Qed.

Lemma bump_zero k c :
  k = 0 -> PY_SSIZE_T_MIN <= c <= PY_SSIZE_T_MAX -> bump k (Some c) = Some c.
Proof.
  intros -> H. rewrite bump_Some, Z.add_0_r, (to_ssize_t_id c H). reflexivity.
Qed.

Lemma refcnt_INCREF y s x :
  refcnt (Py_INCREF y s) x =
    if decide (x = y) then bump 1 (refcnt s x) else refcnt s x.
Proof.
  unfold Py_INCREF, refcnt, bump. destruct (objs s !! y) as [o |] eqn:E.
  - cbn [objs with_objs]. destruct (decide (x = y)) as [-> | N].
    + rewrite lookup_insert_eq, E. reflexivity.
    + rewrite lookup_insert_ne by congruence. reflexivity.
  - destruct (decide (x = y)) as [-> | N]; [rewrite E |]; reflexivity.
Qed.

Lemma refcnt_DECREF y s x :
  refcnt (Py_DECREF y s) x =
    if decide (x = y) then bump (-1) (refcnt s x) else refcnt s x.
Proof.
  unfold Py_DECREF, refcnt, bump. destruct (objs s !! y) as [o |] eqn:E.
  - assert (Ho : forall s1, objs (if to_ssize_t (ob_refcnt o - 1) =? 0
                                  then _Py_Dealloc y s1 else s1) = objs s1)
      by (intros s1; destruct (_ =? 0); reflexivity).
    rewrite Ho. cbn [objs with_objs]. destruct (decide (x = y)) as [-> | N].
    + rewrite lookup_insert_eq, E. reflexivity.
    + rewrite lookup_insert_ne by congruence. reflexivity.
  - destruct (decide (x = y)) as [-> | N]; [rewrite E |]; reflexivity.
Qed.

(** Nothing but the counter of the object named changes under [Py_INCREF]. *)
Lemma Py_INCREF_frame y s :
  heap (Py_INCREF y s) = heap s /\ err (Py_INCREF y s) = err s /\
  trace (Py_INCREF y s) = trace s /\ violations (Py_INCREF y s) = violations s /\
  (forall x, ob_type <$> objs (Py_INCREF y s) !! x = ob_type <$> objs s !! x) /\
  (forall x, x <> y -> objs (Py_INCREF y s) !! x = objs s !! x).
Proof.
  unfold Py_INCREF. destruct (objs s !! y) as [o |] eqn:E; cbn.
  - repeat split; try reflexivity.
    + intros x. destruct (decide (x = y)) as [-> | N].
      * rewrite lookup_insert_eq, E. reflexivity.
      * rewrite lookup_insert_ne by congruence. reflexivity.
    + intros x N. rewrite lookup_insert_ne by congruence. reflexivity.
  - repeat split; reflexivity.
Qed.

(** [Py_DECREF] logs a call to [_Py_Dealloc] exactly when the counter it
    writes is zero. *)
Lemma trace_DECREF y s :
  trace (Py_DECREF y s) =
    match bump (-1) (refcnt s y) with
    | Some c => if c =? 0 then EvDealloc y :: trace s else trace s
    | None => trace s
    end.
Proof.
  unfold Py_DECREF, refcnt, bump. destruct (objs s !! y) as [o |]; cbn; [| reflexivity].
  destruct (_ =? 0); reflexivity.
Qed.

Ltac same_ptr := repeat (rewrite decide_True by reflexivity).

(** C7. For every object [x], whatever its type: [py_incref] returns [None]
    and never sets an error; the counter of [x] is one more (in the
    arithmetic of [Py_ssize_t], and exactly one more below its maximum) when
    the returned reference has been dropped, and already at return when [x]
    is not [None] itself; the type of [x], every other object but [None],
    the heap, the error indicator and the logs are unchanged. *)
Theorem py_incref_adds_one x o s :
  objs s !! x = Some o ->
  fst (py_incref x s) = Py_None /\
  refcnt (discard (py_incref x s)) x = Some (to_ssize_t (ob_refcnt o + 1)) /\
  (x <> Py_None ->
   refcnt (snd (py_incref x s)) x = Some (to_ssize_t (ob_refcnt o + 1))) /\
  (PY_SSIZE_T_MIN <= ob_refcnt o < PY_SSIZE_T_MAX ->
   to_ssize_t (ob_refcnt o + 1) = ob_refcnt o + 1) /\
  ob_type <$> objs (snd (py_incref x s)) !! x = Some (ob_type o) /\
  (forall y, y <> x -> y <> Py_None ->
             objs (snd (py_incref x s)) !! y = objs s !! y) /\
  heap (snd (py_incref x s)) = heap s /\
  err (snd (py_incref x s)) = err s /\
  trace (snd (py_incref x s)) = trace s /\
  violations (snd (py_incref x s)) = violations s.
Proof.
  intros Hx.
  assert (Hr : refcnt s x = Some (ob_refcnt o)) by (unfold refcnt; rewrite Hx; reflexivity).
  unfold py_incref, Py_RETURN_NONE, discard. cbn [fst snd].
  destruct (Py_INCREF_frame Py_None (Py_INCREF x s)) as (Hh1 & He1 & Ht1 & Hv1 & Hty1 & Ho1).
  destruct (Py_INCREF_frame x s) as (Hh0 & He0 & Ht0 & Hv0 & Hty0 & Ho0).
  split; [reflexivity |]. split; [| split; [| split; [| split; [| split]]]].
  - rewrite refcnt_DECREF, !refcnt_INCREF, Hr.
    destruct (decide (x = Py_None)) as [E | N]; same_ptr; [| reflexivity].
    rewrite !bump_bump, bump_Some. reflexivity.
  - intros N. rewrite !refcnt_INCREF, Hr.
    destruct (decide (x = Py_None)) as [E | _]; [contradiction |]. same_ptr. reflexivity.
  - intros H. apply to_ssize_t_id. lia.
  - rewrite Hty1, Hty0, Hx. reflexivity.
  - intros y N1 N2. rewrite Ho1, Ho0 by assumption. reflexivity.
  - repeat split; congruence.
Qed.

(** C5. For every object [x] whose counter holds a [Py_ssize_t] value:
    [py_incref(x)] followed by [py_decref(x)] leaves the counter at the value
    it had, both calls being statements whose returned reference is dropped;
    when [x] is not [None] itself this already holds at the return of the
    second call, and if the counter was not zero no deallocation is
    triggered on the way. *)
Theorem incref_then_decref_is_net_zero x o s :
  objs s !! x = Some o ->
  PY_SSIZE_T_MIN <= ob_refcnt o <= PY_SSIZE_T_MAX ->
  refcnt (discard (py_decref x (discard (py_incref x s)))) x = Some (ob_refcnt o) /\
  (x <> Py_None ->
   refcnt (snd (py_decref x (snd (py_incref x s)))) x = Some (ob_refcnt o) /\
   (ob_refcnt o <> 0 ->
    trace (snd (py_decref x (snd (py_incref x s)))) = trace s)).
Proof.
  intros Hx Hrange.
  assert (Hr : refcnt s x = Some (ob_refcnt o)) by (unfold refcnt; rewrite Hx; reflexivity).
  unfold py_incref, py_decref, Py_RETURN_NONE, discard. cbn [fst snd].
  split.
  - rewrite !refcnt_DECREF, !refcnt_INCREF, !refcnt_DECREF, !refcnt_INCREF, Hr.
    destruct (decide (x = Py_None)) as [E | N]; same_ptr;
      rewrite !bump_bump; (apply bump_zero; [reflexivity | exact Hrange]).
  - intros N. split.
    + rewrite !refcnt_INCREF, !refcnt_DECREF, !refcnt_INCREF, Hr.
      destruct (decide (x = Py_None)) as [E | _]; [contradiction |]. same_ptr.
      rewrite !bump_bump. apply bump_zero; [reflexivity | exact Hrange].
    + intros Hnz.
      destruct (Py_INCREF_frame Py_None (Py_DECREF x (Py_INCREF Py_None (Py_INCREF x s))))
        as (_ & _ & -> & _).
      rewrite trace_DECREF, !refcnt_INCREF, Hr.
      destruct (decide (x = Py_None)) as [E | _]; [contradiction |]. same_ptr.
      rewrite !bump_bump, (bump_zero (1 + -1) _ eq_refl Hrange).
      destruct (Z.eqb_spec (ob_refcnt o) 0); [contradiction |].
      destruct (Py_INCREF_frame Py_None (Py_INCREF x s)) as (_ & _ & -> & _).
      destruct (Py_INCREF_frame x s) as (_ & _ & -> & _). reflexivity.
Qed.

(** ** The size attribute *)

(** C6, as the code has it. Each of the three types lists [size] as a
    [T_ULONG] member with flags 0, that is, without [READONLY].  On any
    handle the attribute reads the stored size, and assigning an integer [z]
    that fits an [unsigned long] succeeds: the stored size becomes [z], the
    attribute then reads [z], and the buffer is not touched. *)
Theorem size_attribute_is_assignable self z s :
  0 <= z < modulus ->
  Forall (fun t =>
    Forall (fun l => Z.land (m_flags l) READONLY = 0) (tp_members t) /\
    getattr t self "size" s = (Some (to_size_t (size self)), s) /\
    setattr t self "size" (Some (PyLong z)) s = (0, set_size z self, s) /\
    getattr t (set_size z self) "size" s = (Some z, s) /\
    buffer (set_size z self) = buffer self)
  handle_types.
Proof.
  intros Hz.
  assert (Hb : (0 <=? z) && (z <? modulus) = true).
  { destruct (Z.leb_spec 0 z); [| lia]. destruct (Z.ltb_spec z modulus); [reflexivity | lia]. }
  unfold handle_types, PyInit_cMemLeak. cbn [map snd].
  repeat constructor;
    try (unfold getattr, PyMember_GetOne; cbn; try rewrite (to_size_t_small z Hz); reflexivity);
    unfold setattr, PyMember_SetOne; cbn -[modulus Z.leb Z.ltb]; rewrite Hb; reflexivity.
Qed.

(** ** Byte buffers *)

(** C4. When the argument parses to a non-negative [n]: a bytes object
    returned by [py_bytes_of_size] has length [n], with [n] cells of
    storage that were never written before its terminator; for [n = 0] the
    call returns the empty bytes object and changes nothing; and for
    [n > 0] within the size limit of bytes objects the call returns an
    object whenever the object allocator serves the request. *)
Theorem py_bytes_of_size_has_length args kwds n s :
  PyArg_ParseTupleAndKeywords args kwds "size" = inr n ->
  0 <= n ->
  (forall b s', py_bytes_of_size args kwds s = (Some b, s') ->
     PyBytes_Size b = n /\
     length (PyBytes_AsString b) = Z.to_nat n /\
     ob_sval b = repeat None (Z.to_nat n) ++ [Some x00]) /\
  (n = 0 -> py_bytes_of_size args kwds s = (Some bytes_empty, s)) /\
  (0 < n -> n <= PY_SSIZE_T_MAX - PyBytesObject_SIZE ->
   grant (heap s) Fam_obj (PyBytesObject_SIZE + n) = true ->
   exists b s', py_bytes_of_size args kwds s = (Some b, s') /\ err s' = err s).
Proof.
  intros Hp Hn. pose proof (parse_range _ _ _ _ Hp) as Hr.
  unfold py_bytes_of_size, PyBytes_FromStringAndSize. rewrite Hp.
  rewrite (to_ssize_t_to_size_t n Hr).
  destruct (Z.ltb_spec n 0) as [? | _]; [lia |].
  split; [| split].
  - intros b s'. destruct (Z.eqb_spec n 0) as [-> | Hnz].
    + intros [= <- <-]. repeat split; reflexivity.
    + destruct (PY_SSIZE_T_MAX - PyBytesObject_SIZE <? n); [discriminate |].
      unfold PyObject_Malloc.
      destruct (raw_alloc Fam_obj (PyBytesObject_SIZE + n) s) as [p s1].
      destruct (p =? NULL); [discriminate |].
      intros [= <- <-]. unfold PyBytes_Size, PyBytes_AsString. cbn [ob_size ob_sval].
      repeat split.
      rewrite take_app_length'; rewrite repeat_length; reflexivity.
  - intros ->. reflexivity.
  - intros Hpos Hmax Hg. destruct (Z.eqb_spec n 0) as [? | _]; [lia |].
    destruct (Z.ltb_spec (PY_SSIZE_T_MAX - PyBytesObject_SIZE) n) as [? | _]; [lia |].
    unfold PyObject_Malloc. rewrite (raw_alloc_served _ _ _ Hg).
    cbn [Z.eqb NULL]. eexists _, _. split; reflexivity.
Qed.

(** * Further properties of the handle types *)

Lemma requested_range n : 1 <= requested n < modulus.
Proof.
  unfold requested, to_size_t.
  pose proof modulus_double. pose proof half_modulus_pos.
  pose proof (Z.mod_pos_bound n modulus ltac:(lia)).
  destruct (Z.eqb_spec (n mod modulus) 0); lia.
Qed.

Lemma requested_positive n :
  1 <= n <= PY_SSIZE_T_MAX -> requested n = n.
Proof.
  intros H. unfold requested.
  assert (Hs : to_size_t n = n).
  { apply to_size_t_small. unfold PY_SSIZE_T_MAX in H.
    pose proof modulus_double. lia. }
  rewrite Hs. destruct (Z.eqb_spec n 0); [lia | reflexivity].
Qed.

(** The two answers of an allocator. *)
Lemma raw_alloc_cases f n s :
  (grant (heap s) f n = false /\
   raw_alloc f n s = (NULL, log (EvAlloc f n NULL) s)) \/
  (grant (heap s) f n = true /\
   raw_alloc f n s =
     (Z.pos (brk s),
      log (EvAlloc f n (Z.pos (brk s)))
        (with_heap (<[Z.pos (brk s) := Block f n]> (heap s))
                   (brk s + Z.to_pos n)%positive s))).
Proof.
  destruct (grant (heap s) f n) eqn:Hg.
  - right. split; [reflexivity |]. apply raw_alloc_served. exact Hg.
  - left. split; [reflexivity |]. apply raw_alloc_refused. exact Hg.
Qed.

(** A release leaves alone every block at another address or of another
    family. *)
Lemma raw_release_preserves g p s q b :
  heap s !! q = Some b ->
  q <> p \/ blk_family b <> g ->
  heap (raw_release g p s) !! q = Some b.
Proof.
  intros Hq Hne. unfold raw_release. destruct (p =? NULL); [exact Hq |].
  cbn [heap log]. destruct (heap s !! p) as [b' |] eqn:Hp; [| exact Hq].
  destruct (decide (blk_family b' = g)) as [E | N]; [| exact Hq].
  cbn [heap with_heap]. destruct (decide (q = p)) as [-> | Hqp].
  - rewrite Hq in Hp. injection Hp as <-. destruct Hne; contradiction.
  - rewrite lookup_delete_ne by congruence. exact Hq.
Qed.

Lemma getattr_size_c self s :
  getattr CMallocObjectType self "size" s = (Some (to_size_t (size self)), s).
Proof. reflexivity. Qed.

Lemma getattr_size_raw self s :
  getattr PyRawMallocObjectType self "size" s = (Some (to_size_t (size self)), s).
Proof. reflexivity. Qed.

Lemma getattr_size_py self s :
  getattr PyMallocObjectType self "size" s = (Some (to_size_t (size self)), s).
Proof. reflexivity. Qed.

Ltac establishes init_error init_parsed f :=
  intros self args kwds s r self' s';
  cbn [tp_init CMallocObjectType PyRawMallocObjectType PyMallocObjectType];
  destruct (PyArg_ParseTupleAndKeywords args kwds "size") as [e | n] eqn:Hp;
  [ rewrite (init_error _ _ _ _ _ Hp); intros [= <- <- <-];
    repeat split; auto; discriminate
  | rewrite (init_parsed _ _ _ _ _ Hp); unfold malloc, PyMem_Malloc, init_result;
    pose proof (requested_range n);
    destruct (raw_alloc_cases f (requested n) s) as [[_ E] | [_ E]];
    rewrite E; cbn [fst snd Z.eqb NULL]; intros [= <- <- <-];
    cbn [ob_base buffer size set_buffer set_size
         heap objs err trace violations log with_heap];
    (split; [auto |]); (split; [reflexivity |]); (split; [reflexivity |]);
    (split; [reflexivity |]); (split; [right; eexists; reflexivity |]);
    (split; intros Hr; [first [reflexivity | discriminate Hr] |]);
    first [ discriminate Hr
          | repeat split; try reflexivity; try discriminate; try lia;
            apply lookup_insert_eq ] ].

(** X1. What a [tp_init] establishes, for the three types: result 0 or -1,
    the instance and the objects untouched, nothing released (at most one
    allocation event appended to the trace, no violation, the heap
    unchanged on failure and extended by exactly the buffer on success), and
    on success a live buffer of the type's allocator family whose size is
    the size stored. *)
Theorem tp_init_postcondition :
  init_establishes CMallocObjectType Fam_libc /\
  init_establishes PyRawMallocObjectType Fam_mem /\
  init_establishes PyMallocObjectType Fam_mem.
Proof.
  unfold init_establishes. split; [| split].
  - establishes CMallocObject_init_parse_error CMallocObject_init_parsed Fam_libc.
  - establishes PyRawMallocObject_init_parse_error PyRawMallocObject_init_parsed Fam_mem.
  - establishes PyMallocObject_init_parse_error PyMallocObject_init_parsed Fam_mem.
Qed.

Lemma tp_alloc_cases k s :
  (grant (heap s) Fam_obj k = false /\
   tp_alloc k s = (None, PyErr_NoMemory (log (EvAlloc Fam_obj k NULL) s))) \/
  (grant (heap s) Fam_obj k = true /\
   tp_alloc k s = (Some (fresh_handle s), stored k s)).
Proof.
  unfold tp_alloc, PyObject_Malloc.
  destruct (raw_alloc_cases Fam_obj k s) as [[Hg E] | [Hg E]]; rewrite E.
  - left. split; [exact Hg | reflexivity].
  - right. split; [exact Hg | reflexivity].
Qed.

(** The call of a type, by the answer to the request for the instance. *)
Lemma type_call_cases t args kwds s :
  In t handle_types ->
  (grant (heap s) Fam_obj (tp_basicsize t) = false /\
   type_call t args kwds s
     = (None, PyErr_NoMemory (log (EvAlloc Fam_obj (tp_basicsize t) NULL) s))) \/
  (grant (heap s) Fam_obj (tp_basicsize t) = true /\
   type_call t args kwds s
     = (let '(r, obj, s2) :=
          tp_init t (fresh_handle s) args kwds (stored (tp_basicsize t) s) in
        if r <? 0 then (None, tp_dealloc t obj s2) else (Some obj, s2))).
Proof.
  unfold handle_types, PyInit_cMemLeak. cbn [map snd In].
  intros [<- | [<- | [<- | []]]]; unfold type_call;
    cbn [tp_new tp_init tp_dealloc tp_basicsize
         CMallocObjectType PyRawMallocObjectType PyMallocObjectType];
    unfold CMallocObject_new, PyRawMallocObject_new, PyMallocObject_new;
    (destruct (tp_alloc_cases sizeof_MallocObject s) as [[Hg E] | [Hg E]]; rewrite E;
     [left | right]; (split; [exact Hg | reflexivity])).
Qed.

(** An init whose argument parses, by the answer of its allocator. *)
Lemma init_result_cases self n f s :
  (grant (heap s) f (requested n) = false /\
   init_result self n (raw_alloc f (requested n) s)
     = (-1, set_buffer NULL (set_size (requested n) self),
        log (EvAlloc f (requested n) NULL) s)) \/
  (grant (heap s) f (requested n) = true /\
   init_result self n (raw_alloc f (requested n) s)
     = (0, set_buffer (Z.pos (brk s)) (set_size (requested n) self),
        log (EvAlloc f (requested n) (Z.pos (brk s)))
          (with_heap (<[Z.pos (brk s) := Block f (requested n)]> (heap s))
                     (brk s + Z.to_pos (requested n))%positive s))).
Proof.
  destruct (raw_alloc_cases f (requested n) s) as [[Hg E] | [Hg E]]; rewrite E;
    [left | right]; (split; [exact Hg | reflexivity]).
Qed.

Ltac succeeds_iff t_in init_error init_parsed f :=
  intros args kwds s;
  destruct (type_call_cases _ args kwds s t_in) as [[Hg E] | [Hg E]];
  rewrite E; cbn [tp_basicsize tp_init tp_dealloc
                  CMallocObjectType PyRawMallocObjectType PyMallocObjectType] in *;
  rewrite Hg;
  [ split; [| reflexivity];
    split; [intros [x Hx]; discriminate Hx | intros [Hc _]; discriminate Hc]
  | split; [| discriminate];
    destruct (PyArg_ParseTupleAndKeywords args kwds "size") as [e | n] eqn:Hp;
    [ rewrite (init_error _ _ _ _ _ Hp); cbn [Z.ltb Z.compare fst];
      split; [intros [x Hx]; discriminate Hx
             | intros (_ & n & Hn & _); discriminate Hn]
    | rewrite (init_parsed _ _ _ _ _ Hp); unfold malloc, PyMem_Malloc;
      destruct (init_result_cases (fresh_handle s) n f (stored sizeof_MallocObject s))
        as [[Hb Ei] | [Hb Ei]];
      rewrite Ei; cbn [Z.ltb Z.compare fst]; cbn [heap stored log with_heap] in Hb;
      [ split; [intros [x Hx]; discriminate Hx
               | intros (_ & m & Hm & Hg'); injection Hm as <-;
                 rewrite Hg' in Hb; discriminate Hb]
      | split; [intros _; split; [reflexivity | exists n; split; [reflexivity | exact Hb]]
               | intros _; eexists; reflexivity] ] ] ].

Lemma CMallocObjectType_is_handle_type : In CMallocObjectType handle_types.
Proof. left. reflexivity. Qed.

Lemma PyRawMallocObjectType_is_handle_type : In PyRawMallocObjectType handle_types.
Proof. right. left. reflexivity. Qed.

Lemma PyMallocObjectType_is_handle_type : In PyMallocObjectType handle_types.
Proof. right. right. left. reflexivity. Qed.

(** X5. When the call of a handle type returns an object. *)
Theorem construction_succeeds_exactly_when_served :
  construction_succeeds_iff CMallocObjectType Fam_libc /\
  construction_succeeds_iff PyRawMallocObjectType Fam_mem /\
  construction_succeeds_iff PyMallocObjectType Fam_mem.
Proof.
  unfold construction_succeeds_iff. split; [| split].
  - succeeds_iff CMallocObjectType_is_handle_type
      CMallocObject_init_parse_error CMallocObject_init_parsed Fam_libc.
  - succeeds_iff PyRawMallocObjectType_is_handle_type
      PyRawMallocObject_init_parse_error PyRawMallocObject_init_parsed Fam_mem.
  - succeeds_iff PyMallocObjectType_is_handle_type
      PyMallocObject_init_parse_error PyMallocObject_init_parsed Fam_mem.
Qed.

Ltac one_byte t f t_in init_parsed getattr_one :=
  match goal with
  | Hp : PyArg_ParseTupleAndKeywords ?args ?kwds _ = inr ?n,
    Hq : requested ?n = 1 |- _ =>
      assert (Hserved : forall self s,
                grant (heap s) f 1 = true ->
                tp_init t self args kwds s
                  = (0, set_buffer (Z.pos (brk s)) (set_size 1 self),
                     log (EvAlloc f 1 (Z.pos (brk s)))
                       (with_heap (<[Z.pos (brk s) := Block f 1]> (heap s))
                                  (brk s + 1)%positive s)))
        by (intros self s Hg;
            cbn [tp_init CMallocObjectType PyRawMallocObjectType PyMallocObjectType];
            rewrite (init_parsed _ _ _ _ _ Hp); unfold init_result, malloc, PyMem_Malloc;
            rewrite Hq, (raw_alloc_served _ _ _ Hg); reflexivity);
      split; [| split; [exact Hserved | split]];
      [ intros self s;
        cbn [tp_init CMallocObjectType PyRawMallocObjectType PyMallocObjectType];
        rewrite (init_parsed _ _ _ _ _ Hp); unfold init_result;
        rewrite Hq; reflexivity
      | intros self s Hg;
        cbn [tp_init CMallocObjectType PyRawMallocObjectType PyMallocObjectType];
        rewrite (init_parsed _ _ _ _ _ Hp); unfold init_result, malloc, PyMem_Malloc;
        rewrite Hq, (raw_alloc_refused _ _ _ Hg); reflexivity
      | intros s Hgo Hgb;
        destruct (type_call_cases _ args kwds s t_in) as [[Hg E] | [_ E]];
        [rewrite Hg in Hgo; discriminate Hgo |];
        rewrite E, (Hserved _ _ Hgb); cbn [Z.ltb Z.compare];
        eexists _, _; split; [reflexivity |];
        cbn [size buffer set_size set_buffer heap log with_heap];
        split; [reflexivity |]; split; [unfold NULL; discriminate |];
        split; [apply lookup_insert_eq | apply getattr_one; reflexivity] ]
  end.

(** C3. For each of the three handle types, constructing with a size
    argument that parses to 0 is the same computation as constructing with
    one that parses to 1 (same result, same handle, same world, whether the
    allocator serves the request or refuses it).  That computation is the
    one call [malloc(1)] (for [CMalloc]) or [PyMem_Malloc(1)] (for the other
    two): when the allocator serves the byte, [tp_init] returns 0 and leaves
    a handle of size 1 owning a live one-byte block, when it refuses,
    [tp_init] returns -1; and when the instance and the byte are both
    served, the call of the type returns a handle whose size attribute
    reads 1. *)
Theorem size_zero_is_size_one args0 kwds0 args1 kwds1 :
  PyArg_ParseTupleAndKeywords args0 kwds0 "size" = inr 0 ->
  PyArg_ParseTupleAndKeywords args1 kwds1 "size" = inr 1 ->
  ((zero_as_one CMallocObjectType args0 kwds0 args1 kwds1 /\
    init_requests CMallocObjectType Fam_libc args0 kwds0 1) /\
   (zero_as_one PyRawMallocObjectType args0 kwds0 args1 kwds1 /\
    init_requests PyRawMallocObjectType Fam_mem args0 kwds0 1) /\
   (zero_as_one PyMallocObjectType args0 kwds0 args1 kwds1 /\
    init_requests PyMallocObjectType Fam_mem args0 kwds0 1)) /\
  (allocates_one_byte CMallocObjectType malloc Fam_libc args0 kwds0 /\
   allocates_one_byte CMallocObjectType malloc Fam_libc args1 kwds1) /\
  (allocates_one_byte PyRawMallocObjectType PyMem_Malloc Fam_mem args0 kwds0 /\
   allocates_one_byte PyRawMallocObjectType PyMem_Malloc Fam_mem args1 kwds1) /\
  (allocates_one_byte PyMallocObjectType PyMem_Malloc Fam_mem args0 kwds0 /\
   allocates_one_byte PyMallocObjectType PyMem_Malloc Fam_mem args1 kwds1).
Proof.
  intros H0 H1.
  split; [exact (zero_and_one_same_call _ _ _ _ H0 H1) |].
  pose proof requested_zero as Hq0. pose proof requested_one as Hq1.
  unfold allocates_one_byte.
  split; [| split]; split.
  - clear H1 Hq1.
    one_byte CMallocObjectType Fam_libc CMallocObjectType_is_handle_type
      CMallocObject_init_parsed getattr_size_one_c.
  - clear H0 Hq0.
    one_byte CMallocObjectType Fam_libc CMallocObjectType_is_handle_type
      CMallocObject_init_parsed getattr_size_one_c.
  - clear H1 Hq1.
    one_byte PyRawMallocObjectType Fam_mem PyRawMallocObjectType_is_handle_type
      PyRawMallocObject_init_parsed getattr_size_one_raw.
  - clear H0 Hq0.
    one_byte PyRawMallocObjectType Fam_mem PyRawMallocObjectType_is_handle_type
      PyRawMallocObject_init_parsed getattr_size_one_raw.
  - clear H1 Hq1.
    one_byte PyMallocObjectType Fam_mem PyMallocObjectType_is_handle_type
      PyMallocObject_init_parsed getattr_size_one_py.
  - clear H0 Hq0.
    one_byte PyMallocObjectType Fam_mem PyMallocObjectType_is_handle_type
      PyMallocObject_init_parsed getattr_size_one_py.
Qed.

Ltac reads_back t_in init_parsed f :=
  intros args kwds n s obj s1 Hp Hn;
  pose proof (parse_range _ _ _ _ Hp) as Hr;
  assert (Hq : requested n = n) by (apply requested_positive; lia);
  destruct (type_call_cases _ args kwds s t_in) as [[Hg E] | [Hg E]];
  rewrite E; [discriminate |];
  cbn [tp_basicsize tp_init tp_dealloc
       CMallocObjectType PyRawMallocObjectType PyMallocObjectType];
  rewrite (init_parsed _ _ _ _ _ Hp); unfold malloc, PyMem_Malloc;
  destruct (init_result_cases (fresh_handle s) n f (stored sizeof_MallocObject s))
    as [[Hb Ei] | [Hb Ei]];
  rewrite Ei; cbn [Z.ltb Z.compare]; [discriminate |];
  intros [= <- <-]; cbn [buffer set_buffer heap log with_heap];
  rewrite Hq; split; [| split];
  [ unfold getattr, PyMember_GetOne; cbn;
    rewrite ?Hq, to_size_t_small;
    [reflexivity | unfold PY_SSIZE_T_MAX in Hr; pose proof modulus_double; lia]
  | unfold NULL; discriminate
  | apply lookup_insert_eq ].

(** X2. The size given at construction is the size read back. *)
Theorem constructed_size_reads_back :
  size_reads_back CMallocObjectType Fam_libc /\
  size_reads_back PyRawMallocObjectType Fam_mem /\
  size_reads_back PyMallocObjectType Fam_mem.
Proof.
  unfold size_reads_back. split; [| split].
  - reads_back CMallocObjectType_is_handle_type CMallocObject_init_parsed Fam_libc.
  - reads_back PyRawMallocObjectType_is_handle_type PyRawMallocObject_init_parsed Fam_mem.
  - reads_back PyMallocObjectType_is_handle_type PyMallocObject_init_parsed Fam_mem.
Qed.

(** Two requests in a row are served at two addresses, the second above the
    first, and both at or above the break they started from. *)
Lemma second_address_above (b : positive) (k : Z) :
  Z.pos b < Z.pos (b + Z.to_pos k).
Proof. lia. Qed.

(** Destroying a handle whose buffer and instance are two live blocks, the
    buffer of the family [f] the destructor releases through. *)
Lemma release_both f self n k s :
  buffer self <> NULL -> ob_base self <> NULL -> buffer self <> ob_base self ->
  heap s !! buffer self = Some (Block f n) ->
  heap s !! ob_base self = Some (Block Fam_obj k) ->
  tp_free self (raw_release f (buffer self) s)
    = with_heap (delete (ob_base self) (delete (buffer self) (heap s))) (brk s)
        (log (EvRelease Fam_obj (ob_base self)) (log (EvRelease f (buffer self)) s)).
Proof.
  intros Hb Hp Hne Hlb Hlp.
  rewrite (raw_release_matched f (buffer self) n s Hb Hlb).
  unfold tp_free, PyObject_Free.
  rewrite (raw_release_matched Fam_obj (ob_base self) k); [reflexivity | exact Hp |].
  cbn [heap with_heap]. rewrite lookup_delete_ne by exact Hne. exact Hlp.
Qed.

Ltac restores t_in init_parsed f release_def :=
  intros args kwds s obj s1 Hok;
  destruct (type_call_cases _ args kwds s t_in) as [[Hg E] | [Hg E]];
  rewrite E; [discriminate |];
  cbn [tp_basicsize tp_init tp_dealloc
       CMallocObjectType PyRawMallocObjectType PyMallocObjectType];
  destruct (PyArg_ParseTupleAndKeywords args kwds "size") as [e | n] eqn:Hp;
  [ match goal with
    | |- context [?init (fresh_handle s) args kwds ?s0] =>
        let X := fresh in
        assert (X : exists s2, init (fresh_handle s) args kwds s0 = (-1, fresh_handle s, s2))
          by (unfold init; rewrite Hp; eexists; reflexivity);
        destruct X as [s2 X]; rewrite X; cbn [Z.ltb Z.compare]; discriminate
    end |];
  rewrite (init_parsed _ _ _ _ _ Hp); unfold malloc, PyMem_Malloc;
  destruct (init_result_cases (fresh_handle s) n f (stored sizeof_MallocObject s))
    as [[Hb Ei] | [Hb Ei]];
  rewrite Ei; cbn [Z.ltb Z.compare]; [discriminate |];
  intros [= <- <-];
  pose proof (second_address_above (brk s) sizeof_MallocObject) as Habove;
  unfold release_def, free, PyMem_Free;
  erewrite (release_both f _ (requested n) sizeof_MallocObject);
  [ cbn [buffer ob_base set_buffer set_size fresh_handle stored
         brk heap violations log with_heap];
    split; [| split; [reflexivity |]];
    [ apply map_eq; intros q;
      rewrite !lookup_delete, !lookup_insert;
      repeat case_decide; subst; try lia; try congruence;
      symmetry; apply Hok; lia
    | intros q Hq; cbn [buffer ob_base set_buffer set_size fresh_handle stored
                        brk heap violations log with_heap] in *;
      rewrite !lookup_delete, !lookup_insert;
      repeat case_decide; subst; try reflexivity; apply Hok; lia ]
  | cbn; unfold NULL; lia
  | cbn; unfold NULL; lia
  | cbn; lia
  | cbn [buffer ob_base set_buffer set_size fresh_handle stored
         brk heap violations log with_heap]; apply lookup_insert_eq
  | cbn [buffer ob_base set_buffer set_size fresh_handle stored
         brk heap violations log with_heap];
    rewrite lookup_insert_ne by lia; apply lookup_insert_eq ].

(** X3. Constructing and destroying a [CMalloc] or a [PyMalloc] handle, in a
    world whose live blocks all lie below the break, gives the heap back
    exactly as it was, records no invalid release, and keeps the blocks below
    the break. *)
Theorem construct_then_destroy_restores_heap :
  lifecycle_restores_heap CMallocObjectType /\
  lifecycle_restores_heap PyMallocObjectType.
Proof.
  unfold lifecycle_restores_heap. split.
  - restores CMallocObjectType_is_handle_type CMallocObject_init_parsed Fam_libc
      CMallocObject_dealloc.
  - restores PyMallocObjectType_is_handle_type PyMallocObject_init_parsed Fam_mem
      PyMallocObject_dealloc.
Qed.

Ltac leaks init_error init_parsed f dealloc_def :=
  intros self a1 k1 a2 k2 s self1 s1 self2 s2;
  cbn [tp_init tp_dealloc CMallocObjectType PyRawMallocObjectType PyMallocObjectType];
  destruct (PyArg_ParseTupleAndKeywords a1 k1 "size") as [e1 | n1] eqn:Hp1;
  [rewrite (init_error _ _ _ _ _ Hp1); discriminate |];
  rewrite (init_parsed _ _ _ _ _ Hp1); unfold malloc, PyMem_Malloc;
  destruct (init_result_cases self n1 f s) as [[_ E1] | [_ E1]];
  rewrite E1; [discriminate |];
  intros [= <- <-];
  destruct (PyArg_ParseTupleAndKeywords a2 k2 "size") as [e2 | n2] eqn:Hp2;
  [rewrite (init_error _ _ _ _ _ Hp2); discriminate |];
  rewrite (init_parsed _ _ _ _ _ Hp2); unfold malloc, PyMem_Malloc;
  match goal with
  | |- init_result ?sf _ (raw_alloc _ _ ?st) = _ -> _ =>
      destruct (init_result_cases sf n2 f st) as [[_ E2] | [_ E2]];
      rewrite E2; [discriminate |]
  end;
  intros [= <- <-];
  cbn [buffer size set_buffer set_size brk heap log with_heap];
  match goal with
  | |- _ /\ ?h !! ?b = Some ?blk /\ _ =>
      let Hl := fresh "Hl" in
      assert (Hl : h !! b = Some blk)
        by (rewrite lookup_insert_ne by lia; apply lookup_insert_eq);
      split; [lia | split; [exact Hl |]];
      unfold dealloc_def, tp_free, PyObject_Free, free, PyMem_RawFree, PyMem_Free;
      apply raw_release_preserves;
      [ apply raw_release_preserves;
        [ exact Hl | left; cbn [buffer set_buffer]; lia ]
      | right; discriminate ]
  end.

(** X4. A second init leaks the first buffer, for the three types. *)
Theorem second_init_leaks_first_buffer :
  second_init_leaks CMallocObjectType Fam_libc /\
  second_init_leaks PyRawMallocObjectType Fam_mem /\
  second_init_leaks PyMallocObjectType Fam_mem.
Proof.
  unfold second_init_leaks. split; [| split].
  - leaks CMallocObject_init_parse_error CMallocObject_init_parsed Fam_libc
      CMallocObject_dealloc.
  - leaks PyRawMallocObject_init_parse_error PyRawMallocObject_init_parsed Fam_mem
      PyRawMallocObject_dealloc.
  - leaks PyMallocObject_init_parse_error PyMallocObject_init_parsed Fam_mem
      PyMallocObject_dealloc.
Qed.

(** * Further properties of the module functions *)

(** Nothing but the counter of the object named changes under [Py_DECREF],
    apart from the log of deallocations. *)
Lemma Py_DECREF_frame y s :
  heap (Py_DECREF y s) = heap s /\ err (Py_DECREF y s) = err s /\
  violations (Py_DECREF y s) = violations s /\
  (forall x, ob_type <$> objs (Py_DECREF y s) !! x = ob_type <$> objs s !! x) /\
  (forall x, x <> y -> objs (Py_DECREF y s) !! x = objs s !! x).
Proof.
  unfold Py_DECREF. destruct (objs s !! y) as [o |] eqn:E.
  - destruct (to_ssize_t (ob_refcnt o - 1) =? 0); cbn;
      (repeat split; try reflexivity;
       [ intros x; destruct (decide (x = y)) as [-> | N];
         [ rewrite lookup_insert_eq, E; reflexivity
         | rewrite lookup_insert_ne by congruence; reflexivity ]
       | intros x N; rewrite lookup_insert_ne by congruence; reflexivity ]).
  - repeat split; reflexivity.
Qed.

(** X6. [py_decref] on an object other than [None] whose counter can go
    down by one.  When the counter is not 1, the call returns [None], the
    counter is one less, [_Py_Dealloc] is not called and nothing else
    changes.  When the counter is 1, the call hands the object to
    [_Py_Dealloc]. *)
Theorem py_decref_subtracts_one x o s :
  objs s !! x = Some o ->
  x <> Py_None ->
  PY_SSIZE_T_MIN < ob_refcnt o <= PY_SSIZE_T_MAX ->
  (ob_refcnt o <> 1 ->
   fst (py_decref x s) = Py_None /\
   refcnt (snd (py_decref x s)) x = Some (ob_refcnt o - 1) /\
   trace (snd (py_decref x s)) = trace s /\
   ob_type <$> objs (snd (py_decref x s)) !! x = Some (ob_type o) /\
   (forall y, y <> x -> y <> Py_None ->
              objs (snd (py_decref x s)) !! y = objs s !! y) /\
   heap (snd (py_decref x s)) = heap s /\
   err (snd (py_decref x s)) = err s /\
   violations (snd (py_decref x s)) = violations s) /\
  (ob_refcnt o = 1 -> handed_to_dealloc x s (snd (py_decref x s))).
Proof.
  intros Hx N Hrange.
  assert (Hr : refcnt s x = Some (ob_refcnt o)) by (unfold refcnt; rewrite Hx; reflexivity).
  assert (Hw : to_ssize_t (ob_refcnt o + -1) = ob_refcnt o - 1)
    by (rewrite to_ssize_t_id by lia; lia).
  unfold py_decref, Py_RETURN_NONE. cbn [fst snd].
  destruct (Py_INCREF_frame Py_None (Py_DECREF x s)) as (Hh1 & He1 & Ht1 & Hv1 & Hty1 & Ho1).
  destruct (Py_DECREF_frame x s) as (Hh0 & He0 & Hv0 & Hty0 & Ho0).
  split.
  - intros Hc. split; [reflexivity |]. split; [| split; [| split; [| split]]].
    + rewrite refcnt_INCREF, refcnt_DECREF, Hr.
      destruct (decide (x = Py_None)) as [E | _]; [contradiction |]. same_ptr.
      rewrite bump_Some, Hw. reflexivity.
    + rewrite Ht1, trace_DECREF, Hr, bump_Some, Hw.
      destruct (Z.eqb_spec (ob_refcnt o - 1) 0); [lia | reflexivity].
    + rewrite Hty1, Hty0, Hx. reflexivity.
    + intros y N1 N2. rewrite Ho1, Ho0 by assumption. reflexivity.
    + repeat split; congruence.
  - intros Hc. exists [EvDealloc x]. split; [| left; reflexivity].
    rewrite Ht1, trace_DECREF, Hr, bump_Some, Hw, Hc. reflexivity.
Qed.

(** X7. The other order, [py_decref(x)] followed by [py_incref(x)], on an
    object other than [None].  When the counter is not 1 the pair leaves it
    where it was and [_Py_Dealloc] is not called.  When the counter is 1 the
    orders differ: the first call already hands the object to
    [_Py_Dealloc], before [py_incref] is entered, whereas
    [py_incref(x)] followed by [py_decref(x)] calls no [_Py_Dealloc] and
    leaves the counter at 1. *)
Theorem decref_then_incref_deallocates_last_reference x o s :
  objs s !! x = Some o ->
  x <> Py_None ->
  PY_SSIZE_T_MIN < ob_refcnt o <= PY_SSIZE_T_MAX ->
  (ob_refcnt o <> 1 ->
   refcnt (snd (py_incref x (snd (py_decref x s)))) x = Some (ob_refcnt o) /\
   trace (snd (py_incref x (snd (py_decref x s)))) = trace s) /\
  (ob_refcnt o = 1 ->
   handed_to_dealloc x s (snd (py_decref x s)) /\
   trace (snd (py_decref x (snd (py_incref x s)))) = trace s /\
   refcnt (snd (py_decref x (snd (py_incref x s)))) x = Some 1).
Proof.
  intros Hx N Hrange.
  assert (Hr : refcnt s x = Some (ob_refcnt o)) by (unfold refcnt; rewrite Hx; reflexivity).
  assert (Hw : to_ssize_t (ob_refcnt o + -1) = ob_refcnt o - 1)
    by (rewrite to_ssize_t_id by lia; lia).
  unfold py_incref, py_decref, Py_RETURN_NONE. cbn [fst snd]. split.
  - intros Hc. split.
    + rewrite !refcnt_INCREF, refcnt_DECREF, Hr.
      destruct (decide (x = Py_None)) as [E | _]; [contradiction |]. same_ptr.
      rewrite !bump_bump. apply bump_zero; [reflexivity | lia].
    + destruct (Py_INCREF_frame Py_None (Py_INCREF x (Py_INCREF Py_None (Py_DECREF x s))))
        as (_ & _ & -> & _).
      destruct (Py_INCREF_frame x (Py_INCREF Py_None (Py_DECREF x s))) as (_ & _ & -> & _).
      destruct (Py_INCREF_frame Py_None (Py_DECREF x s)) as (_ & _ & -> & _).
      rewrite trace_DECREF, Hr, bump_Some, Hw.
      destruct (Z.eqb_spec (ob_refcnt o - 1) 0); [lia | reflexivity].
  - intros Hc.
    assert (Hback : bump (-1) (bump 1 (Some (ob_refcnt o))) = Some (ob_refcnt o))
      by (rewrite bump_bump; apply bump_zero; [reflexivity | lia]).
    split; [| split].
    + exists [EvDealloc x]. split; [| left; reflexivity].
      destruct (Py_INCREF_frame Py_None (Py_DECREF x s)) as (_ & _ & -> & _).
      rewrite trace_DECREF, Hr, bump_Some, Hw, Hc. reflexivity.
    + destruct (Py_INCREF_frame Py_None
                  (Py_DECREF x (Py_INCREF Py_None (Py_INCREF x s)))) as (_ & _ & -> & _).
      rewrite trace_DECREF, !refcnt_INCREF, Hr.
      destruct (decide (x = Py_None)) as [E | _]; [contradiction |]. same_ptr.
      rewrite Hback, Hc. cbn [Z.eqb].
      destruct (Py_INCREF_frame Py_None (Py_INCREF x s)) as (_ & _ & -> & _).
      destruct (Py_INCREF_frame x s) as (_ & _ & -> & _). reflexivity.
    + rewrite refcnt_INCREF, refcnt_DECREF, !refcnt_INCREF, Hr.
      destruct (decide (x = Py_None)) as [E | _]; [contradiction |]. same_ptr.
      rewrite Hback, Hc. reflexivity.
Qed.

(** One call as a statement moves the counter by one, whatever the object. *)
Lemma refcnt_incref_statement x s :
  refcnt (discard (py_incref x s)) x = bump 1 (refcnt s x).
Proof.
  unfold py_incref, Py_RETURN_NONE, discard. cbn [fst snd].
  rewrite refcnt_DECREF, !refcnt_INCREF.
  destruct (decide (x = Py_None)) as [E | N]; same_ptr; [| reflexivity].
  rewrite !bump_bump. reflexivity.
Qed.

Lemma refcnt_decref_statement x s :
  refcnt (discard (py_decref x s)) x = bump (-1) (refcnt s x).
Proof.
  unfold py_decref, Py_RETURN_NONE, discard. cbn [fst snd].
  rewrite refcnt_DECREF, refcnt_INCREF, refcnt_DECREF.
  destruct (decide (x = Py_None)) as [E | N]; same_ptr; [| reflexivity].
  rewrite !bump_bump. reflexivity.
Qed.

Lemma refcnt_repeat_incref x c k s :
  refcnt s x = Some c ->
  PY_SSIZE_T_MIN <= c <= PY_SSIZE_T_MAX ->
  refcnt (repeat_call py_incref x k s) x = Some (to_ssize_t (c + Z.of_nat k)).
Proof.
  intros Hr Hc. unfold repeat_call. induction k as [| k IH].
  - cbn [Nat.iter nat_rect]. rewrite Hr, Z.add_0_r, (to_ssize_t_id c Hc). reflexivity.
  - rewrite Nat.iter_succ, refcnt_incref_statement, IH, bump_Some, to_ssize_t_add.
    do 2 f_equal. lia.
Qed.

Lemma refcnt_repeat_decref x c k s :
  refcnt s x = Some c ->
  PY_SSIZE_T_MIN <= c <= PY_SSIZE_T_MAX ->
  refcnt (repeat_call py_decref x k s) x = Some (to_ssize_t (c - Z.of_nat k)).
Proof.
  intros Hr Hc. unfold repeat_call. induction k as [| k IH].
  - cbn [Nat.iter nat_rect]. rewrite Hr, Z.sub_0_r, (to_ssize_t_id c Hc). reflexivity.
  - rewrite Nat.iter_succ, refcnt_decref_statement, IH, bump_Some, to_ssize_t_add.
    do 2 f_equal. lia.
Qed.

(** X8. [k] calls of [py_incref(x)] as statements add [k] to the counter of
    [x], in the arithmetic of [Py_ssize_t] and exactly while the sum stays
    within it; [k] calls of [py_decref(x)] after them bring it back. *)
Theorem repeated_incref_adds_up x o k s :
  objs s !! x = Some o ->
  PY_SSIZE_T_MIN <= ob_refcnt o <= PY_SSIZE_T_MAX ->
  refcnt (repeat_call py_incref x k s) x
    = Some (to_ssize_t (ob_refcnt o + Z.of_nat k)) /\
  (ob_refcnt o + Z.of_nat k <= PY_SSIZE_T_MAX ->
   refcnt (repeat_call py_incref x k s) x = Some (ob_refcnt o + Z.of_nat k)) /\
  refcnt (repeat_call py_decref x k (repeat_call py_incref x k s)) x
    = Some (ob_refcnt o).
Proof.
  intros Hx Hrange.
  assert (Hr : refcnt s x = Some (ob_refcnt o)) by (unfold refcnt; rewrite Hx; reflexivity).
  pose proof (refcnt_repeat_incref x _ k s Hr Hrange) as H1.
  split; [exact H1 |]. split.
  - intros Hmax. rewrite H1, to_ssize_t_id by lia. reflexivity.
  - rewrite (refcnt_repeat_decref x _ k _ H1 (to_ssize_t_range _)).
    replace (to_ssize_t (ob_refcnt o + Z.of_nat k) - Z.of_nat k)
      with (to_ssize_t (ob_refcnt o + Z.of_nat k) + - Z.of_nat k) by lia.
    rewrite to_ssize_t_add.
    replace (ob_refcnt o + Z.of_nat k + - Z.of_nat k) with (ob_refcnt o) by lia.
    rewrite (to_ssize_t_id _ Hrange). reflexivity.
Qed.

(** X9. [py_bytes_of_size] never returns [NULL] without an exception, and
    never changes the heap when it fails; when it returns an object the error
    indicator is untouched, the object has a non-negative length and one
    cell of storage more than its length, and the heap has changed only by
    the one block of header plus length bytes that holds it (no block at all
    for the empty object). *)
Theorem py_bytes_of_size_outcomes args kwds s :
  forall r s', py_bytes_of_size args kwds s = (r, s') ->
  match r with
  | None => is_Some (err s') /\ heap s' = heap s /\ violations s' = violations s
  | Some b =>
      err s' = err s /\ violations s' = violations s /\
      0 <= ob_size b /\
      length (ob_sval b) = S (Z.to_nat (ob_size b)) /\
      (ob_size b = 0 -> s' = s) /\
      (0 < ob_size b ->
       exists p, p <> NULL /\
         trace s' = EvAlloc Fam_obj (PyBytesObject_SIZE + ob_size b) p :: trace s /\
         heap s' = <[p := Block Fam_obj (PyBytesObject_SIZE + ob_size b)]> (heap s))
  end.
Proof.
  intros r s'. unfold py_bytes_of_size.
  destruct (PyArg_ParseTupleAndKeywords args kwds "size") as [e | n].
  - intros [= <- <-]. cbn. repeat split. eexists. reflexivity.
  - unfold PyBytes_FromStringAndSize.
    set (m := to_ssize_t (to_size_t n)).
    destruct (Z.ltb_spec m 0).
    { intros [= <- <-]. cbn. repeat split. eexists. reflexivity. }
    destruct (Z.eqb_spec m 0).
    { intros [= <- <-]. cbn. repeat split; try reflexivity; try lia. }
    destruct (PY_SSIZE_T_MAX - PyBytesObject_SIZE <? m).
    { intros [= <- <-]. cbn. repeat split. eexists. reflexivity. }
    unfold PyObject_Malloc.
    destruct (raw_alloc_cases Fam_obj (PyBytesObject_SIZE + m) s) as [[_ E] | [_ E]];
      rewrite E; cbn [Z.eqb NULL]; intros [= <- <-]; cbn.
    + repeat split. eexists. reflexivity.
    + repeat split; try lia.
      * rewrite length_app, repeat_length. cbn. lia.
      * intros _. eexists. split; [| split; reflexivity]. unfold NULL. discriminate.
Qed.

(** * Properties of module initialisation *)

Lemma err_INCREF y s : err (Py_INCREF y s) = err s.
Proof. apply (Py_INCREF_frame y s). Qed.

Lemma err_DECREF y s : err (Py_DECREF y s) = err s.
Proof. apply (Py_DECREF_frame y s). Qed.

Lemma heap_INCREF y s : heap (Py_INCREF y s) = heap s.
Proof. apply (Py_INCREF_frame y s). Qed.

Lemma trace_INCREF y s : trace (Py_INCREF y s) = trace s.
Proof. apply (Py_INCREF_frame y s). Qed.

Lemma refcnt_with_err e s x : refcnt (with_err e s) x = refcnt s x.
Proof. reflexivity. Qed.

(** The references the host takes change one counter and nothing else. *)
Lemma add_refs_frame k y s :
  heap (add_refs k y s) = heap s /\ err (add_refs k y s) = err s /\
  trace (add_refs k y s) = trace s /\ violations (add_refs k y s) = violations s.
Proof.
  unfold add_refs. destruct (objs s !! y); repeat split; reflexivity.
Qed.

Lemma err_add_refs k y s : err (add_refs k y s) = err s.
Proof. apply (add_refs_frame k y s). Qed.

Lemma heap_add_refs k y s : heap (add_refs k y s) = heap s.
Proof. apply (add_refs_frame k y s). Qed.

Lemma trace_add_refs k y s : trace (add_refs k y s) = trace s.
Proof. apply (add_refs_frame k y s). Qed.

Lemma refcnt_add_refs k y s x :
  refcnt (add_refs k y s) x =
    if decide (x = y) then bump k (refcnt s x) else refcnt s x.
Proof.
  unfold add_refs, refcnt, bump. destruct (objs s !! y) as [o |] eqn:E.
  - cbn [objs with_objs]. destruct (decide (x = y)) as [-> | N].
    + rewrite lookup_insert_eq, E. reflexivity.
    + rewrite lookup_insert_ne by congruence. reflexivity.
  - destruct (decide (x = y)) as [-> | N]; [rewrite E |]; reflexivity.
Qed.

(** The counters right after the module has been created. *)
Lemma refcnt_new_module m s x :
  refcnt (with_objs (<[Z.pos m := {| ob_refcnt := module_refs; ob_type := "module" |}]>
                       (objs s)) s) x
    = if decide (x = Z.pos m) then Some module_refs else refcnt s x.
Proof.
  unfold refcnt. cbn [objs with_objs]. destruct (decide (x = Z.pos m)) as [-> | N].
  - rewrite lookup_insert_eq. reflexivity.
  - rewrite lookup_insert_ne by congruence. reflexivity.
Qed.

Lemma bound_refs_insert_eq d name p :
  bound_refs (<[name := AttrType p]> d) name = 1.
Proof. unfold bound_refs. rewrite lookup_insert_eq. reflexivity. Qed.

Lemma bound_refs_insert_ne d name name' a :
  name' <> name -> bound_refs (<[name' := a]> d) name = bound_refs d name.
Proof. intros N. unfold bound_refs. rewrite lookup_insert_ne by exact N. reflexivity. Qed.

(** The method table binds none of the three type names. *)
Lemma bound_refs_methods name :
  In name ["CMalloc"; "PyRawMalloc"; "PyMalloc"]%string ->
  bound_refs (list_to_map (map (fun d => (ml_name d, AttrFunction d))
                               (md_methods cMemLeakmodule))) name = 0.
Proof.
  intros [<- | [<- | [<- | []]]]; vm_compute; reflexivity.
Qed.

(** X10. [PyInit_cMemLeak] returns the module exactly when the host creates
    it and none of the three [PyType_Ready] and three [PyModule_AddObject]
    calls fails; a [NULL] result always comes with an exception; and on
    success the dictionary of the module holds the three functions and the
    three types under [CMalloc], [PyRawMalloc] and [PyMalloc], with the error
    indicator, the heap and the logs untouched. *)
Theorem module_init_outcome s :
  (fst (PyInit_cMemLeak_exec s) <> NULL <->
   is_Some module_create /\ host_never_fails) /\
  (fst (PyInit_cMemLeak_exec s) = NULL ->
   is_Some (err (world (snd (PyInit_cMemLeak_exec s))))) /\
  (fst (PyInit_cMemLeak_exec s) <> NULL ->
   (exists m, module_create = Some m /\ fst (PyInit_cMemLeak_exec s) = Z.pos m) /\
   module_dict (snd (PyInit_cMemLeak_exec s)) = cMemLeak_dict /\
   err (world (snd (PyInit_cMemLeak_exec s))) = err s /\
   heap (world (snd (PyInit_cMemLeak_exec s))) = heap s /\
   trace (world (snd (PyInit_cMemLeak_exec s))) = trace s).
Proof.
  unfold host_never_fails.
  remember module_create as mc eqn:Hmc.
  unfold PyInit_cMemLeak_exec, PyModule_Create. rewrite <- Hmc.
  destruct mc as [m |]; cbn [Z.eqb NULL fst snd world].
  2: { split; [| split].
       - split; [intros H; contradiction H; reflexivity | intros [[x Hx] _]; discriminate Hx].
       - intros _. eexists. reflexivity.
       - intros H. contradiction H. reflexivity. }
  unfold PyType_Ready, PyModule_AddObject.
  repeat (match goal with
          | |- context [match type_ready ?a with _ => _ end] =>
              destruct (type_ready a) eqn:?
          | |- context [match add_object ?n with _ => _ end] =>
              destruct (add_object n) eqn:?
          end;
          cbn [Z.eqb Z.ltb Z.compare NULL world module_dict readied
               take_ready_refs on_world fst snd]).
  all: split; [| split].
  all: try (split; [intros H; contradiction H; reflexivity
                   | intros (_ & H1 & H2 & H3 & H4 & H5 & H6); discriminate]).
  all: try (intros _; rewrite ?err_DECREF; eexists; reflexivity).
  all: try (intros H; contradiction H; reflexivity).
  - split; [intros _ | discriminate]. split; [eexists; reflexivity | repeat split].
  - discriminate.
  - intros _. split; [exists m; split; reflexivity |].
    split; [reflexivity |].
    rewrite ?err_INCREF, ?err_add_refs, ?heap_INCREF, ?heap_add_refs,
      ?trace_INCREF, ?trace_add_refs.
    rewrite ?err_INCREF, ?err_add_refs, ?heap_INCREF, ?heap_add_refs,
      ?trace_INCREF, ?trace_add_refs.
    rewrite ?err_INCREF, ?err_add_refs, ?heap_INCREF, ?heap_add_refs,
      ?trace_INCREF, ?trace_add_refs.
    repeat split.
Qed.

Ltac count_refs :=
  unfold PyErr_NoMemory, PyErr_Set;
  repeat first [ rewrite refcnt_INCREF | rewrite refcnt_DECREF
               | rewrite refcnt_add_refs
               | rewrite refcnt_with_err | rewrite refcnt_new_module ];
  repeat case_decide; try congruence.

(** X11. Whatever the host answers, [PyInit_cMemLeak] leaves each of the
    three type objects with the counter it had, plus the references the
    host took in the [PyType_Ready] calls that were reached, plus exactly
    one for a binding of its name in the dictionary of the module: the
    increment the function takes before [PyModule_AddObject] is given back
    when that call fails, and is the dictionary's own when it succeeds. *)
Theorem module_init_balances_type_references name p o s :
  In (name, p) registered_types ->
  addresses_distinct ->
  objs s !! p = Some o ->
  0 <= ready_refs p ->
  PY_SSIZE_T_MIN <= ob_refcnt o ->
  ob_refcnt o + ready_refs p < PY_SSIZE_T_MAX ->
  refcnt (world (snd (PyInit_cMemLeak_exec s))) p
    = Some (ob_refcnt o
            + readied_refs (readied (snd (PyInit_cMemLeak_exec s))) p
            + bound_refs (module_dict (snd (PyInit_cMemLeak_exec s))) name).
Proof.
  intros Hin (Hcr & Hcp & Hrp & Hm) Hp Hready Hmin Hmax.
  assert (Hr : refcnt s p = Some (ob_refcnt o)) by (unfold refcnt; rewrite Hp; reflexivity).
  remember module_create as mc eqn:Hmc.
  unfold PyInit_cMemLeak_exec, PyModule_Create. rewrite <- Hmc.
  destruct mc as [m |]; cbn [Z.eqb NULL fst snd world module_dict readied].
  2: { unfold PyErr_NoMemory, PyErr_Set. rewrite refcnt_with_err, Hr.
       unfold bound_refs. rewrite lookup_empty. cbn [readied_refs].
       f_equal. lia. }
  destruct (Hm m eq_refl) as (Hmc' & Hmr & Hmp).
  unfold registered_types in Hin. cbn [In] in Hin.
  unfold PyType_Ready, PyModule_AddObject.
  destruct Hin as [[= <- <-] | [[= <- <-] | [[= <- <-] | []]]];
    repeat (match goal with
            | |- context [match type_ready ?a with _ => _ end] =>
                destruct (type_ready a) eqn:?
            | |- context [match add_object ?n with _ => _ end] =>
                destruct (add_object n) eqn:?
            end;
            cbn [Z.eqb Z.ltb Z.compare NULL world module_dict readied
                 take_ready_refs on_world fst snd]);
    cbn [readied_refs];
    count_refs;
    rewrite ?bound_refs_insert_eq;
    repeat (rewrite bound_refs_insert_ne by discriminate);
    rewrite ?bound_refs_insert_eq;
    rewrite ?bound_refs_methods by (cbn; tauto);
    rewrite ?Hr, ?bump_bump, ?bump_Some;
    f_equal; rewrite ?to_ssize_t_id by lia; lia.
Qed.

Lemma to_ssize_t_zero : to_ssize_t 0 = 0.
Proof.
  apply to_ssize_t_id. unfold PY_SSIZE_T_MIN, PY_SSIZE_T_MAX.
  pose proof half_modulus_pos. lia.
Qed.

Lemma trace_with_err e s : trace (with_err e s) = trace s.
Proof. reflexivity. Qed.

(** [Py_DECREF(ty); Py_DECREF(m)] on a module [m] whose counter is [c]: the
    counter is one less, and [m] is handed to [_Py_Dealloc] exactly when
    [c] is 1. *)
Lemma release_type_then_module m ty W s c :
  refcnt W m = Some c ->
  trace W = trace s ->
  m <> ty ->
  PY_SSIZE_T_MIN < c <= PY_SSIZE_T_MAX ->
  refcnt (Py_DECREF m (Py_DECREF ty W)) m = Some (c - 1) /\
  (c = 1 -> handed_to_dealloc m s (Py_DECREF m (Py_DECREF ty W))) /\
  (c <> 1 -> ~ handed_to_dealloc m s (Py_DECREF m (Py_DECREF ty W))).
Proof.
  intros Hc Ht N Hrange.
  assert (Hw : to_ssize_t (c + -1) = c - 1) by (rewrite to_ssize_t_id by lia; lia).
  assert (Hc1 : refcnt (Py_DECREF ty W) m = Some c)
    by (rewrite refcnt_DECREF; destruct (decide (m = ty)); [contradiction | exact Hc]).
  assert (Hty : exists evs, trace (Py_DECREF ty W) = evs ++ trace s /\
                            forall e, In e evs -> e = EvDealloc ty).
  { rewrite trace_DECREF, Ht. destruct (bump (-1) (refcnt W ty)) as [n |].
    - destruct (n =? 0).
      + exists [EvDealloc ty]. split; [reflexivity |].
        intros e [<- | []]. reflexivity.
      + exists []. split; [reflexivity |]. intros e [].
    - exists []. split; [reflexivity |]. intros e []. }
  destruct Hty as (evs & Hevs & Honly).
  split; [| split].
  - rewrite refcnt_DECREF, Hc1. same_ptr. rewrite bump_Some, Hw. reflexivity.
  - intros ->. exists (EvDealloc m :: evs). split; [| left; reflexivity].
    rewrite trace_DECREF, Hc1, bump_Some, Hw, Hevs. reflexivity.
  - intros Hne (evs' & E & Hin).
    rewrite trace_DECREF, Hc1, bump_Some, Hw in E.
    destruct (Z.eqb_spec (c - 1) 0) as [Hz | _]; [lia |].
    rewrite Hevs in E. apply app_inv_tail in E. subst evs'.
    apply Honly in Hin. injection Hin as Hin. contradiction.
Qed.

Ltac oracle_paths :=
  unfold PyType_Ready, PyModule_AddObject;
  repeat (match goal with
          | H : type_ready ?a = _ |- context [match type_ready ?a with _ => _ end] =>
              rewrite H
          | H : add_object ?n = _ |- context [match add_object ?n with _ => _ end] =>
              rewrite H
          | |- context [match type_ready ?a with _ => _ end] =>
              destruct (type_ready a) eqn:?
          | |- context [match add_object ?n with _ => _ end] =>
              destruct (add_object n) eqn:?
          end;
          cbn [Z.eqb Z.ltb Z.compare NULL world module_dict readied
               take_ready_refs on_world fst snd]).

Ltac same_trace :=
  unfold PyErr_Set;
  repeat first [ rewrite trace_with_err | rewrite trace_INCREF
               | rewrite trace_add_refs ];
  reflexivity.

(** X12. When the module exists, every [PyType_Ready] succeeds and a
    [PyModule_AddObject] fails, [PyInit_cMemLeak] returns [NULL] having
    dropped one reference to the module: the counter of the module is one
    less than [PyModule_Create] left it, and the module is handed to
    [_Py_Dealloc] exactly when that reference was the only one.  With the
    references an interpreter keeps in the functions of the method table,
    the module is therefore not deallocated. *)
Theorem failed_registration_drops_module_reference m s :
  module_create = Some m ->
  addresses_distinct ->
  type_ready addr_CMallocObjectType = None ->
  type_ready addr_PyRawMallocObjectType = None ->
  type_ready addr_PyMallocObjectType = None ->
  add_object "CMalloc" <> None \/ add_object "PyRawMalloc" <> None \/
    add_object "PyMalloc" <> None ->
  PY_SSIZE_T_MIN < module_refs <= PY_SSIZE_T_MAX ->
  fst (PyInit_cMemLeak_exec s) = NULL /\
  refcnt (world (snd (PyInit_cMemLeak_exec s))) (Z.pos m) = Some (module_refs - 1) /\
  (module_refs = 1 ->
   handed_to_dealloc (Z.pos m) s (world (snd (PyInit_cMemLeak_exec s)))) /\
  (module_refs <> 1 ->
   ~ handed_to_dealloc (Z.pos m) s (world (snd (PyInit_cMemLeak_exec s)))).
Proof.
  intros Hmc (Hcr & Hcp & Hrp & Hm) Hr1 Hr2 Hr3 Hfail Hrange.
  destruct (Hm m Hmc) as (Hmc' & Hmr & Hmp).
  unfold PyInit_cMemLeak_exec, PyModule_Create. rewrite Hmc.
  cbn [Z.eqb NULL fst snd world module_dict readied].
  oracle_paths.
  all: try (exfalso; destruct Hfail as [H | [H | H]]; apply H; reflexivity).
  all: split; [reflexivity |];
    apply release_type_then_module;
    [ count_refs; reflexivity | same_trace | assumption | exact Hrange ].
Qed.

(** X13. When the module exists, no [PyModule_AddObject] fails and a
    [PyType_Ready] fails, [PyInit_cMemLeak] returns [NULL] without dropping
    its reference to the module: the counter of the module is still the one
    [PyModule_Create] left, the reference returned to the function
    included, and the function has handed nothing to [_Py_Dealloc]. *)
Theorem failed_type_ready_keeps_module_reference m s :
  module_create = Some m ->
  addresses_distinct ->
  add_object "CMalloc" = None ->
  add_object "PyRawMalloc" = None ->
  add_object "PyMalloc" = None ->
  type_ready addr_CMallocObjectType <> None \/
    type_ready addr_PyRawMallocObjectType <> None \/
    type_ready addr_PyMallocObjectType <> None ->
  fst (PyInit_cMemLeak_exec s) = NULL /\
  refcnt (world (snd (PyInit_cMemLeak_exec s))) (Z.pos m) = Some module_refs /\
  trace (world (snd (PyInit_cMemLeak_exec s))) = trace s.
Proof.
  intros Hmc (Hcr & Hcp & Hrp & Hm) Ha1 Ha2 Ha3 Hfail.
  destruct (Hm m Hmc) as (Hmc' & Hmr & Hmp).
  unfold PyInit_cMemLeak_exec, PyModule_Create. rewrite Hmc.
  cbn [Z.eqb NULL fst snd world module_dict readied].
  oracle_paths.
  all: try (exfalso; destruct Hfail as [H | [H | H]]; apply H; reflexivity).
  all: split; [reflexivity |]; split; [count_refs; reflexivity | same_trace].
Qed.

End cMemLeak.

(** * The properties at concrete inputs

    A 64-bit target, an allocator that serves requests of up to 4096 bytes,
    [None] at address 8. *)

Lemma PyRawMalloc_releases_through_another_family_witness :
  PyRawMallocObject_init 64 grant_4k handle0 [PyLong 16] [] world_new
    = (0, {| ob_base := 4096; size := 16; buffer := 4128 |},
       log (EvAlloc Fam_mem 16 4128)
         (with_heap (<[4128 := Block Fam_mem 16]> (heap world_new)) 4144%positive
            world_new)) /\
  In (Mismatched Fam_raw Fam_mem 4128)
     (violations
        (PyRawMallocObject_dealloc {| ob_base := 4096; size := 16; buffer := 4128 |}
           (log (EvAlloc Fam_mem 16 4128)
              (with_heap (<[4128 := Block Fam_mem 16]> (heap world_new)) 4144%positive
                 world_new)))).
Proof.
  split; [reflexivity |].
  apply (PyRawMalloc_releases_through_another_family 64 grant_4k
           handle0 [PyLong 16] [] world_new _ _ eq_refl).
Defined.

Lemma allocation_failure_sets_no_exception_witness :
  PyArg_ParseTupleAndKeywords 64 [PyLong 9223372036854775807] [] "size"
    = inr 9223372036854775807 /\
  malloc grant_4k (requested 64 9223372036854775807) world_new
    = (NULL, log (EvAlloc Fam_libc 9223372036854775807 NULL) world_new) /\
  CMallocObject_init 64 grant_4k handle0 [PyLong 9223372036854775807] [] world_new
    = (-1, set_buffer NULL (set_size 9223372036854775807 handle0),
       log (EvAlloc Fam_libc 9223372036854775807 NULL) world_new) /\
  err (log (EvAlloc Fam_libc 9223372036854775807 NULL) world_new) = None.
Proof.
  split; [reflexivity |]. split; [reflexivity |].
  exact (proj1 (allocation_failure_sets_no_exception 64 grant_4k handle0
                  [PyLong 9223372036854775807] [] 9223372036854775807 world_new
                  (log (EvAlloc Fam_libc 9223372036854775807 NULL) world_new)
                  eq_refl)
               eq_refl).
Defined.

(** The caller of [CMalloc(size=2**63-1)] gets no object and [SystemError]. *)
Lemma CMalloc_out_of_memory_reports_SystemError :
  fst (PyObject_Call (CMallocObjectType 64 grant_4k)
         [PyLong 9223372036854775807] [] world0) = None /\
  err (snd (PyObject_Call (CMallocObjectType 64 grant_4k)
              [PyLong 9223372036854775807] [] world0)) = Some PyExc_SystemError.
Proof. split; vm_compute; reflexivity. Qed.

(** The same request through [py_bytes_of_size] reports [MemoryError]. *)
Lemma py_bytes_of_size_out_of_memory_reports_MemoryError :
  fst (py_bytes_of_size 64 grant_4k [PyLong 5000] [] world0) = None /\
  err (snd (py_bytes_of_size 64 grant_4k [PyLong 5000] [] world0))
    = Some PyExc_MemoryError.
Proof. split; vm_compute; reflexivity. Qed.

Lemma size_zero_is_size_one_witness :
  PyArg_ParseTupleAndKeywords 64 [PyLong 0] [] "size" = inr 0 /\
  PyArg_ParseTupleAndKeywords 64 [] [("size"%string, PyLong 1)] "size" = inr 1 /\
  (zero_as_one 64 (CMallocObjectType 64 grant_4k)
     [PyLong 0] [] [] [("size"%string, PyLong 1)] /\
   init_requests (CMallocObjectType 64 grant_4k) Fam_libc [PyLong 0] [] 1) /\
  allocates_one_byte 64 grant_4k (CMallocObjectType 64 grant_4k) (malloc grant_4k)
    Fam_libc [PyLong 0] [].
Proof.
  split; [reflexivity |]. split; [reflexivity |].
  pose proof (size_zero_is_size_one 64 grant_4k
                [PyLong 0] [] [] [("size"%string, PyLong 1)] eq_refl eq_refl)
    as ((H & _) & (Ha & _) & _).
  split; [exact H | exact Ha].
Defined.

Lemma py_bytes_of_size_has_length_witness :
  PyArg_ParseTupleAndKeywords 64 [PyLong 3] [] "size" = inr 3 /\
  0 <= 3 /\
  forall b s',
    py_bytes_of_size 64 grant_4k [PyLong 3] [] world0 = (Some b, s') ->
    PyBytes_Size b = 3 /\
    length (PyBytes_AsString b) = Z.to_nat 3 /\
    ob_sval b = repeat None (Z.to_nat 3) ++ [Some x00].
Proof.
  split; [reflexivity |]. split; [lia |].
  exact (proj1 (py_bytes_of_size_has_length 64 grant_4k [PyLong 3] [] 3 world0
                  eq_refl ltac:(lia))).
Defined.

Lemma incref_then_decref_is_net_zero_witness :
  objs world_refs !! 64 = Some {| ob_refcnt := 1; ob_type := "list" |} /\
  PY_SSIZE_T_MIN 64 <= 1 <= PY_SSIZE_T_MAX 64 /\
  refcnt (discard 64 (py_decref 64 8 64 (discard 64 (py_incref 64 8 64 world_refs)))) 64
    = Some 1.
Proof.
  split; [reflexivity |].
  split; [unfold PY_SSIZE_T_MIN, PY_SSIZE_T_MAX, half_modulus; simpl; lia |].
  exact (proj1 (incref_then_decref_is_net_zero 64 8 64
                  {| ob_refcnt := 1; ob_type := "list" |} world_refs eq_refl
                  ltac:(unfold PY_SSIZE_T_MIN, PY_SSIZE_T_MAX, half_modulus; simpl; lia))).
Defined.

(** [CMalloc(8)], then [obj.size = 5]: the assignment succeeds. *)
Lemma size_is_not_read_only :
  ~ size_is_read_only 64 (CMallocObjectType 64 grant_4k).
Proof.
  intros H.
  destruct (H [PyLong 8] [] world0 _ _ eq_refl (PyLong 5)) as [H1 _].
  vm_compute in H1. discriminate H1.
Qed.

Lemma size_attribute_is_assignable_witness :
  0 <= 5 < modulus 64 /\
  setattr 64 (CMallocObjectType 64 grant_4k) handle0 "size" (Some (PyLong 5)) world_new
    = (0, set_size 5 handle0, world_new) /\
  getattr 64 (CMallocObjectType 64 grant_4k) (set_size 5 handle0) "size" world_new
    = (Some 5, world_new).
Proof.
  split; [unfold modulus; simpl; lia |].
  pose proof (size_attribute_is_assignable 64 grant_4k handle0 5 world_new
                ltac:(unfold modulus; simpl; lia)) as H.
  apply Forall_inv in H. destruct H as (_ & _ & H1 & H2 & _). split; assumption.
Defined.

Lemma py_incref_adds_one_witness :
  objs world_refs !! 64 = Some {| ob_refcnt := 1; ob_type := "list" |} /\
  fst (py_incref 64 8 64 world_refs) = 8 /\
  refcnt (discard 64 (py_incref 64 8 64 world_refs)) 64 = Some (to_ssize_t 64 (1 + 1)).
Proof.
  split; [reflexivity |].
  pose proof (py_incref_adds_one 64 8 64 {| ob_refcnt := 1; ob_type := "list" |}
                world_refs eq_refl) as (H1 & H2 & _).
  split; assumption.
Defined.

Lemma malformed_size_fails_before_allocating_witness :
  PyArg_ParseTupleAndKeywords 64 [PyOther "float"] [] "size" = inl PyExc_TypeError /\
  InvalidArgument PyExc_TypeError /\
  rejects_before_allocating grant_4k (CMallocObjectType 64 grant_4k) Fam_libc
    [PyOther "float"] [] PyExc_TypeError /\
  forall s, py_bytes_of_size 64 grant_4k [PyOther "float"] [] s
            = (None, PyErr_Set PyExc_TypeError s).
Proof.
  split; [reflexivity |].
  pose proof (malformed_size_fails_before_allocating 64 grant_4k
                [PyOther "float"] [] PyExc_TypeError eq_refl) as (H1 & H2 & _ & _ & H3).
  split; [exact H1 | split; [exact H2 | exact H3]].
Defined.

(** [py_bytes_of_size(-1)] asks no allocator for anything. *)
Lemma negative_bytes_size_reaches_no_allocator :
  ~ bytes_call_reaches_allocator 64 grant_4k [PyLong (-1)] [] world0.
Proof. intros (f & m & p & H). vm_compute in H. discriminate H. Qed.

Lemma negative_size_is_reinterpreted_witness :
  PY_SSIZE_T_MIN 64 <= -1 < 0 /\
  to_size_t 64 (-1) = -1 + modulus 64 /\
  init_requests (CMallocObjectType 64 grant_4k) Fam_libc [PyLong (-1)] []
    (-1 + modulus 64) /\
  py_bytes_of_size 64 grant_4k [PyLong (-1)] [] world0
    = (None, PyErr_Set PyExc_SystemError world0).
Proof.
  assert (Hn : PY_SSIZE_T_MIN 64 <= -1 < 0)
    by (unfold PY_SSIZE_T_MIN, half_modulus; simpl; lia).
  split; [exact Hn |].
  pose proof (negative_size_is_reinterpreted 64 grant_4k (-1) Hn)
    as (Hp & _ & H1 & _ & H2).
  destruct (H2 [PyLong (-1)] [] Hp) as (H3 & _ & _ & H4).
  split; [exact H1 |]. split; [exact H3 |]. exact (proj2 (H4 world0)).
Defined.

Lemma dealloc_without_buffer_is_safe_witness :
  CMallocObject_new grant_4k 32 world0 = (Some handle0, world_new) /\
  buffer handle0 = NULL /\
  violations (CMallocObject_dealloc handle0 world_new) = violations world_new /\
  heap (CMallocObject_dealloc handle0 world_new) = delete 4096 (heap world_new).
Proof.
  split; [reflexivity |].
  destruct (proj1 (dealloc_without_buffer_is_safe 64 grant_4k) world0 handle0 world_new
              eq_refl) as (Hb & Hd).
  destruct (Hd world_new (or_introl eq_refl)) as (_ & Hv & _ & Hh).
  split; [exact Hb |]. split; [exact Hv | exact Hh].
Defined.

(** * Runs of the model *)

(** [h = CMalloc(size=1024)], [h.size], [del h]: the handle reads 1024, and
    destroying it leaves no block and records no violation. *)
Example CMalloc_1024_lifecycle :
  exists obj s1,
    type_call (CMallocObjectType 64 grant_4k) [] [("size"%string, PyLong 1024)] world0
      = (Some obj, s1) /\
    fst (getattr 64 (CMallocObjectType 64 grant_4k) obj "size" s1) = Some 1024 /\
    buffer obj <> NULL /\
    heap (CMallocObject_dealloc obj s1) = ∅ /\
    violations (CMallocObject_dealloc obj s1) = [].
Proof.
  eexists _, _. split; [reflexivity |].
  repeat split; try (vm_compute; reflexivity). vm_compute. discriminate.
Qed.

(** The same life cycle through [PyMalloc] is clean too. *)
Example PyMalloc_16_lifecycle :
  exists obj s1,
    type_call (PyMallocObjectType 64 grant_4k) [PyLong 16] [] world0 = (Some obj, s1) /\
    heap (PyMallocObject_dealloc obj s1) = ∅ /\
    violations (PyMallocObject_dealloc obj s1) = [].
Proof.
  eexists _, _. split; [reflexivity |]. split; vm_compute; reflexivity.
Qed.

(** Through [PyRawMalloc] the buffer is never given back and the release is
    recorded as invalid. *)
Example PyRawMalloc_16_lifecycle :
  exists obj s1,
    type_call (PyRawMallocObjectType 64 grant_4k) [PyLong 16] [] world0 = (Some obj, s1) /\
    heap (PyRawMallocObject_dealloc obj s1) = {[ buffer obj := Block Fam_mem 16 ]} /\
    violations (PyRawMallocObject_dealloc obj s1)
      = [Mismatched Fam_raw Fam_mem (buffer obj)].
Proof.
  eexists _, _. split; [reflexivity |]. split; vm_compute; reflexivity.
Qed.

(** More than one argument, an unknown keyword, no argument, a float and an
    integer beyond [Py_ssize_t] are all refused by the parser. *)
Example parser_refusals :
  PyArg_ParseTupleAndKeywords 64 [PyLong 1; PyLong 2] [] "size" = inl PyExc_TypeError /\
  PyArg_ParseTupleAndKeywords 64 [PyLong 1] [("size"%string, PyLong 2)] "size"
    = inl PyExc_TypeError /\
  PyArg_ParseTupleAndKeywords 64 [] [("length"%string, PyLong 2)] "size"
    = inl PyExc_TypeError /\
  PyArg_ParseTupleAndKeywords 64 [] [] "size" = inl PyExc_TypeError /\
  PyArg_ParseTupleAndKeywords 64 [PyOther "float"] [] "size" = inl PyExc_TypeError /\
  PyArg_ParseTupleAndKeywords 64 [PyLong (2 ^ 63)] [] "size" = inl PyExc_OverflowError.
Proof. repeat split; reflexivity. Qed.

(** * The further properties at concrete inputs *)

Lemma tp_init_postcondition_witness :
  CMallocObject_init 64 grant_4k handle0 [PyLong 16] [] world_new
    = (0, {| ob_base := 4096; size := 16; buffer := 4128 |},
       log (EvAlloc Fam_libc 16 4128)
         (with_heap (<[4128 := Block Fam_libc 16]> (heap world_new)) 4144%positive
            world_new)) /\
  (4128 <> NULL /\ 1 <= 16 < modulus 64 /\
   (<[4128 := Block Fam_libc 16]> (heap world_new) : gmap Z block) !! 4128
     = Some (Block Fam_libc 16) /\
   err world_new = err world_new /\
   EvAlloc Fam_libc 16 4128 :: trace world_new
     = EvAlloc Fam_libc 16 4128 :: trace world_new /\
   (<[4128 := Block Fam_libc 16]> (heap world_new) : gmap Z block)
     = <[4128 := Block Fam_libc 16]> (heap world_new)).
Proof.
  split; [reflexivity |].
  destruct (proj1 (tp_init_postcondition 64 grant_4k)
              handle0 [PyLong 16] [] world_new _ _ _ eq_refl)
    as (_ & _ & _ & _ & _ & _ & H).
  exact (H eq_refl).
Defined.

Lemma constructed_size_reads_back_witness :
  PyArg_ParseTupleAndKeywords 64 [PyLong 1024] [] "size" = inr 1024 /\
  1 <= 1024 /\
  exists obj s1,
    type_call (CMallocObjectType 64 grant_4k) [PyLong 1024] [] world0 = (Some obj, s1) /\
    getattr 64 (CMallocObjectType 64 grant_4k) obj "size" s1 = (Some 1024, s1).
Proof.
  split; [reflexivity |]. split; [lia |].
  eexists _, _. split; [reflexivity |].
  exact (proj1 (proj1 (constructed_size_reads_back 64 grant_4k)
                  [PyLong 1024] [] 1024 world0 _ _ eq_refl ltac:(lia) eq_refl)).
Defined.

Lemma construct_then_destroy_restores_heap_witness :
  world_ok world0 /\
  exists obj s1,
    type_call (PyMallocObjectType 64 grant_4k) [PyLong 16] [] world0 = (Some obj, s1) /\
    heap (PyMallocObject_dealloc obj s1) = heap world0 /\
    violations (PyMallocObject_dealloc obj s1) = violations world0.
Proof.
  assert (Hok : world_ok world0) by (intros p _; apply lookup_empty).
  split; [exact Hok |].
  eexists _, _. split; [reflexivity |].
  destruct (proj2 (construct_then_destroy_restores_heap 64 grant_4k)
              [PyLong 16] [] world0 _ _ Hok eq_refl) as (H1 & H2 & _).
  split; [exact H1 | exact H2].
Defined.

Lemma second_init_leaks_first_buffer_witness :
  exists self1 s1 self2 s2,
    CMallocObject_init 64 grant_4k handle0 [PyLong 16] [] world_new = (0, self1, s1) /\
    CMallocObject_init 64 grant_4k self1 [PyLong 32] [] s1 = (0, self2, s2) /\
    buffer self2 <> buffer self1 /\
    heap (CMallocObject_dealloc self2 s2) !! buffer self1
      = Some (Block Fam_libc (size self1)).
Proof.
  eexists _, _, _, _. split; [reflexivity |]. split; [reflexivity |].
  destruct (proj1 (second_init_leaks_first_buffer 64 grant_4k)
              handle0 [PyLong 16] [] [PyLong 32] [] world_new _ _ _ _ eq_refl eq_refl)
    as (H1 & _ & H2).
  split; [exact H1 | exact H2].
Defined.

Lemma construction_succeeds_exactly_when_served_witness :
  grant_4k (heap world0) Fam_obj 32 = true /\
  PyArg_ParseTupleAndKeywords 64 [PyLong 16] [] "size" = inr 16 /\
  is_Some (fst (type_call (CMallocObjectType 64 grant_4k) [PyLong 16] [] world0)) /\
  ~ is_Some (fst (type_call (CMallocObjectType 64 grant_4k) [PyLong 5000] [] world0)).
Proof.
  split; [reflexivity |]. split; [reflexivity |].
  pose proof (proj1 (construction_succeeds_exactly_when_served 64 grant_4k)) as H.
  split.
  - apply (proj1 (H [PyLong 16] [] world0)).
    split; [reflexivity |]. exists 16. split; reflexivity.
  - intros Hs. apply (proj1 (H [PyLong 5000] [] world0)) in Hs.
    destruct Hs as (_ & n & Hn & Hg). injection Hn as <-. discriminate Hg.
Defined.

Lemma py_decref_subtracts_one_witness :
  objs world_refs !! 64 = Some {| ob_refcnt := 1; ob_type := "list" |} /\
  64 <> 8 /\
  PY_SSIZE_T_MIN 64 < 1 <= PY_SSIZE_T_MAX 64 /\
  handed_to_dealloc 64 world_refs (snd (py_decref 64 8 64 world_refs)) /\
  objs (Py_INCREF 64 64 world_refs) !! 64
    = Some {| ob_refcnt := 2; ob_type := "list" |} /\
  refcnt (snd (py_decref 64 8 64 (Py_INCREF 64 64 world_refs))) 64 = Some (2 - 1) /\
  trace (snd (py_decref 64 8 64 (Py_INCREF 64 64 world_refs)))
    = trace (Py_INCREF 64 64 world_refs).
Proof.
  assert (Hr : forall c, 1 <= c <= 2 -> PY_SSIZE_T_MIN 64 < c <= PY_SSIZE_T_MAX 64)
    by (unfold PY_SSIZE_T_MIN, PY_SSIZE_T_MAX, half_modulus; simpl; lia).
  split; [reflexivity |]. split; [lia |]. split; [apply Hr; lia |].
  split.
  - exact (proj2 (py_decref_subtracts_one 64 8 64 {| ob_refcnt := 1; ob_type := "list" |}
                    world_refs eq_refl ltac:(lia) (Hr 1 ltac:(lia))) eq_refl).
  - split; [reflexivity |].
    destruct (proj1 (py_decref_subtracts_one 64 8 64
                       {| ob_refcnt := 2; ob_type := "list" |}
                       (Py_INCREF 64 64 world_refs) eq_refl ltac:(lia) (Hr 2 ltac:(lia)))
                ltac:(simpl; lia)) as (_ & H1 & H2 & _).
    split; [exact H1 | exact H2].
Defined.

Lemma decref_then_incref_deallocates_last_reference_witness :
  objs world_refs !! 64 = Some {| ob_refcnt := 1; ob_type := "list" |} /\
  64 <> 8 /\
  PY_SSIZE_T_MIN 64 < 1 <= PY_SSIZE_T_MAX 64 /\
  handed_to_dealloc 64 world_refs (snd (py_decref 64 8 64 world_refs)) /\
  trace (snd (py_decref 64 8 64 (snd (py_incref 64 8 64 world_refs))))
    = trace world_refs /\
  refcnt (snd (py_decref 64 8 64 (snd (py_incref 64 8 64 world_refs)))) 64 = Some 1.
Proof.
  assert (Hr : PY_SSIZE_T_MIN 64 < 1 <= PY_SSIZE_T_MAX 64)
    by (unfold PY_SSIZE_T_MIN, PY_SSIZE_T_MAX, half_modulus; simpl; lia).
  split; [reflexivity |]. split; [lia |]. split; [exact Hr |].
  exact (proj2 (decref_then_incref_deallocates_last_reference 64 8 64
                  {| ob_refcnt := 1; ob_type := "list" |} world_refs
                  eq_refl ltac:(lia) Hr) eq_refl).
Defined.

Lemma repeated_incref_adds_up_witness :
  objs world_refs !! 64 = Some {| ob_refcnt := 1; ob_type := "list" |} /\
  refcnt (repeat_call 64 (py_incref 64 8) 64 3 world_refs) 64 = Some (1 + 3) /\
  refcnt (repeat_call 64 (py_decref 64 8) 64 3
            (repeat_call 64 (py_incref 64 8) 64 3 world_refs)) 64 = Some 1.
Proof.
  assert (Hr : PY_SSIZE_T_MIN 64 <= 1 <= PY_SSIZE_T_MAX 64)
    by (unfold PY_SSIZE_T_MIN, PY_SSIZE_T_MAX, half_modulus; simpl; lia).
  split; [reflexivity |].
  destruct (repeated_incref_adds_up 64 8 64 {| ob_refcnt := 1; ob_type := "list" |}
              3%nat world_refs eq_refl Hr) as (_ & H1 & H2).
  split; [| exact H2].
  apply H1. unfold PY_SSIZE_T_MAX, half_modulus. simpl. lia.
Defined.

Lemma py_bytes_of_size_outcomes_witness :
  py_bytes_of_size 64 grant_4k [PyLong 5000] [] world0
    = (None, PyErr_NoMemory (log (EvAlloc Fam_obj 5033 NULL) world0)) /\
  is_Some (err (PyErr_NoMemory (log (EvAlloc Fam_obj 5033 NULL) world0))).
Proof.
  split; [reflexivity |].
  exact (proj1 (py_bytes_of_size_outcomes 64 grant_4k [PyLong 5000] [] world0
                  None _ eq_refl)).
Defined.

Lemma module_init_outcome_witness :
  is_Some (Some 500%positive) /\
  host_never_fails always_ok always_ok 100 200 300 /\
  fst (PyInit_cMemLeak_exec 64 grant_4k 8 (Some 500%positive) always_ok always_ok
         100 200 300 refs_of_new_module four_refs world_types) <> NULL /\
  module_dict (snd (PyInit_cMemLeak_exec 64 grant_4k 8 (Some 500%positive)
                      always_ok always_ok 100 200 300
                      refs_of_new_module four_refs world_types))
    = cMemLeak_dict 64 grant_4k 8 100 200 300.
Proof.
  assert (Hc : is_Some (Some 500%positive)) by (eexists; reflexivity).
  assert (Hh : host_never_fails always_ok always_ok 100 200 300)
    by (repeat split; reflexivity).
  split; [exact Hc |]. split; [exact Hh |].
  destruct (module_init_outcome 64 grant_4k 8 (Some 500%positive) always_ok always_ok
              100 200 300 refs_of_new_module four_refs world_types) as (H1 & _ & H3).
  pose proof (proj2 H1 (conj Hc Hh)) as Hn.
  split; [exact Hn |]. exact (proj1 (proj2 (H3 Hn))).
Defined.

Lemma module_init_balances_type_references_witness :
  In ("PyRawMalloc"%string, 200) (registered_types 100 200 300) /\
  addresses_distinct (Some 500%positive) 100 200 300 /\
  objs world_types !! 200 = Some {| ob_refcnt := 1; ob_type := "type" |} /\
  0 <= four_refs 200 /\
  PY_SSIZE_T_MIN 64 <= 1 /\
  1 + four_refs 200 < PY_SSIZE_T_MAX 64 /\
  refcnt (world (snd (PyInit_cMemLeak_exec 64 grant_4k 8 (Some 500%positive)
                        always_ok always_ok
                        100 200 300 refs_of_new_module four_refs world_types))) 200
    = Some 6 /\
  refcnt (world (snd (PyInit_cMemLeak_exec 64 grant_4k 8 (Some 500%positive)
                        always_ok (fails_on_name "PyRawMalloc")
                        100 200 300 refs_of_new_module four_refs world_types))) 200
    = Some 5.
Proof.
  assert (Hin : In ("PyRawMalloc"%string, 200) (registered_types 100 200 300))
    by (right; left; reflexivity).
  assert (Hd : addresses_distinct (Some 500%positive) 100 200 300).
  { repeat split; try lia; injection H as <-; lia. }
  assert (H0 : 0 <= four_refs 200) by (unfold four_refs; lia).
  assert (Hmin : PY_SSIZE_T_MIN 64 <= 1)
    by (unfold PY_SSIZE_T_MIN, half_modulus; simpl; lia).
  assert (Hmax : 1 + four_refs 200 < PY_SSIZE_T_MAX 64)
    by (unfold PY_SSIZE_T_MAX, half_modulus, four_refs; simpl; lia).
  split; [exact Hin |]. split; [exact Hd |]. split; [reflexivity |].
  split; [exact H0 |]. split; [exact Hmin |]. split; [exact Hmax |].
  split.
  - exact (module_init_balances_type_references 64 grant_4k 8 (Some 500%positive)
             always_ok always_ok 100 200 300 refs_of_new_module four_refs
             "PyRawMalloc" 200 {| ob_refcnt := 1; ob_type := "type" |} world_types
             Hin Hd eq_refl H0 Hmin Hmax).
  - exact (module_init_balances_type_references 64 grant_4k 8 (Some 500%positive)
             always_ok (fails_on_name "PyRawMalloc") 100 200 300
             refs_of_new_module four_refs
             "PyRawMalloc" 200 {| ob_refcnt := 1; ob_type := "type" |} world_types
             Hin Hd eq_refl H0 Hmin Hmax).
Defined.

Lemma failed_registration_drops_module_reference_witness :
  fails_on_name "PyRawMalloc" "PyRawMalloc" <> None /\
  PY_SSIZE_T_MIN 64 < refs_of_new_module <= PY_SSIZE_T_MAX 64 /\
  fst (PyInit_cMemLeak_exec 64 grant_4k 8 (Some 500%positive)
         always_ok (fails_on_name "PyRawMalloc") 100 200 300
         refs_of_new_module four_refs world_types) = NULL /\
  refcnt (world (snd (PyInit_cMemLeak_exec 64 grant_4k 8 (Some 500%positive)
                        always_ok (fails_on_name "PyRawMalloc")
                        100 200 300 refs_of_new_module four_refs world_types))) 500
    = Some (4 - 1) /\
  ~ handed_to_dealloc 500 world_types
      (world (snd (PyInit_cMemLeak_exec 64 grant_4k 8 (Some 500%positive)
                     always_ok (fails_on_name "PyRawMalloc")
                     100 200 300 refs_of_new_module four_refs world_types))).
Proof.
  assert (Hf : fails_on_name "PyRawMalloc" "PyRawMalloc" <> None) by discriminate.
  assert (Hd : addresses_distinct (Some 500%positive) 100 200 300).
  { repeat split; try lia; injection H as <-; lia. }
  assert (Hr : PY_SSIZE_T_MIN 64 < refs_of_new_module <= PY_SSIZE_T_MAX 64)
    by (unfold PY_SSIZE_T_MIN, PY_SSIZE_T_MAX, half_modulus, refs_of_new_module;
        simpl; lia).
  split; [exact Hf |]. split; [exact Hr |].
  destruct (failed_registration_drops_module_reference 64 grant_4k 8
              (Some 500%positive)
              always_ok (fails_on_name "PyRawMalloc") 100 200 300
              refs_of_new_module four_refs 500%positive
              world_types eq_refl Hd eq_refl eq_refl eq_refl
              (or_intror (or_introl Hf)) Hr) as (H1 & H2 & _ & H4).
  split; [exact H1 |]. split; [exact H2 |].
  apply H4. unfold refs_of_new_module. lia.
Defined.

Lemma failed_type_ready_keeps_module_reference_witness :
  fails_on_ptr 200 200 <> None /\
  fst (PyInit_cMemLeak_exec 64 grant_4k 8 (Some 500%positive)
         (fails_on_ptr 200) always_ok 100 200 300
         refs_of_new_module four_refs world_types) = NULL /\
  refcnt (world (snd (PyInit_cMemLeak_exec 64 grant_4k 8 (Some 500%positive)
                        (fails_on_ptr 200) always_ok
                        100 200 300 refs_of_new_module four_refs world_types))) 500
    = Some 4 /\
  trace (world (snd (PyInit_cMemLeak_exec 64 grant_4k 8 (Some 500%positive)
                       (fails_on_ptr 200) always_ok
                       100 200 300 refs_of_new_module four_refs world_types)))
    = trace world_types.
Proof.
  assert (Hf : fails_on_ptr 200 200 <> None) by discriminate.
  assert (Hd : addresses_distinct (Some 500%positive) 100 200 300).
  { repeat split; try lia; injection H as <-; lia. }
  split; [exact Hf |].
  exact (failed_type_ready_keeps_module_reference 64 grant_4k 8 (Some 500%positive)
           (fails_on_ptr 200) always_ok 100 200 300
           refs_of_new_module four_refs 500%positive
           world_types eq_refl Hd eq_refl eq_refl eq_refl
           (or_intror (or_introl Hf))).
Defined.
